(** * MarkItDown API (app/app.py): file lifecycle, naming and path safety

    A shallow embedding of the request handlers of [app/app.py] over an
    explicit model of the part of the filesystem they touch, followed by the
    properties of the specification that were checked against it.

    Conventions of the model
    - a [bytes] value, a name, a path or a message is a [string], one
      character per byte; the text a converter returns is a [str], the list
      of its code points: the handlers report its length in characters and
      write its UTF-8 encoding, whose length in bytes is the size of the
      file (the service runs on Linux, where text mode leaves newlines as
      they are);
    - the filesystem is a finite map from canonical absolute paths (lists of
      component names, the root being the empty list) to nodes; symbolic
      links, permissions, quotas and name-length limits are not modelled, so
      the only errors of a file operation are a missing or non-directory
      path component, an operation applied to a directory, and a text that
      UTF-8 cannot encode;
    - [uuid.uuid4()], the clock that stamps a written file and the external
      converter are inputs of a request. *)

From Stdlib Require Import Ascii NArith ZArith Lia.
From stdpp Require Import gmap strings list fin_maps.

(** ** Strings as Python uses them *)

(** [s[n:]] *)
Fixpoint drop_str (n : nat) (s : string) : string :=
  match n, s with
  | O, _ => s
  | S _, EmptyString => EmptyString
  | S n', String _ r => drop_str n' r
  end.

(** [s[:n]] *)
Fixpoint take_str (n : nat) (s : string) : string :=
  match n, s with
  | O, _ => EmptyString
  | S _, EmptyString => EmptyString
  | S n', String c r => String c (take_str n' r)
  end.

(** [s.rfind(c)], with [None] for Python's [-1]. *)
Fixpoint rfind (c : ascii) (s : string) : option nat :=
  match s with
  | EmptyString => None
  | String a r =>
      match rfind c r with
      | Some i => Some (S i)
      | None => if Ascii.eqb a c then Some O else None
      end
  end.

(** [s.split('/')]: never empty, the pieces hold no separator. *)
Fixpoint split_slash (s : string) : list string :=
  match s with
  | EmptyString => [EmptyString]
  | String a r =>
      if Ascii.eqb a "/"%char then EmptyString :: split_slash r
      else match split_slash r with
           | seg :: segs => String a seg :: segs
           | [] => [String a EmptyString]
           end
  end.

(** [s.endswith(suf)] *)
Definition endswith (s suf : string) : bool :=
  String.eqb (drop_str (String.length s - String.length suf) s) suf
  && (String.length suf <=? String.length s)%nat.

(** A Python [str]: its code points, each below [0x110000]; [len] is the
    length of the list. *)
Definition str := list N.

(** [not text] *)
Definition is_empty (text : str) : bool :=
  match text with
  | [] => true
  | _ :: _ => false
  end.

Definition byte (n : N) : ascii := ascii_of_N n.

(** The UTF-8 encoding of one code point, as the [utf-8] codec in strict mode
    computes it: one to four bytes, and an error ([None]) for a surrogate
    ([0xd800] to [0xdfff]), which a [str] can hold but UTF-8 cannot. *)
Definition utf8_char (ch : N) : option string :=
  if (ch <? 0x80)%N then
    Some (String (byte ch) "")
  else if (ch <? 0x800)%N then
    Some (String (byte (N.lor 0xc0 (N.shiftr ch 6)))
         (String (byte (N.lor 0x80 (N.land ch 0x3f))) ""))
  else if (0xd800 <=? ch)%N && (ch <=? 0xdfff)%N then
    None
  else if (ch <? 0x10000)%N then
    Some (String (byte (N.lor 0xe0 (N.shiftr ch 12)))
         (String (byte (N.lor 0x80 (N.land (N.shiftr ch 6) 0x3f)))
         (String (byte (N.lor 0x80 (N.land ch 0x3f))) "")))
  else if (ch <? 0x110000)%N then
    Some (String (byte (N.lor 0xf0 (N.shiftr ch 18)))
         (String (byte (N.lor 0x80 (N.land (N.shiftr ch 12) 0x3f)))
         (String (byte (N.lor 0x80 (N.land (N.shiftr ch 6) 0x3f)))
         (String (byte (N.lor 0x80 (N.land ch 0x3f))) ""))))
  else None.

(** [text.encode('utf-8')], [None] standing for [UnicodeEncodeError]. *)
Fixpoint utf8_encode (text : str) : option string :=
  match text with
  | [] => Some ""
  | ch :: rest =>
      match utf8_char ch, utf8_encode rest with
      | Some bytes, Some more => Some (bytes +:+ more)
      | _, _ => None
      end
  end.

(** ** posixpath and pathlib *)

(** [os.path.basename(p)]: [i = p.rfind('/') + 1; return p[i:]]. *)
Definition basename (p : string) : string :=
  match rfind "/"%char p with
  | Some i => drop_str (S i) p
  | None => p
  end.

(** A [Path] of this program is always absolute (both directory constants
    are): it is the list of its parts below the root. *)
Abbreviation Path := (list string).

(** The parts pathlib keeps of a string: empty components and ["."] go. *)
Definition keeps (x : string) : bool :=
  negb (String.eqb x "") && negb (String.eqb x ".").

(** pathlib gives a string that starts with exactly two slashes the root
    ["//"] (POSIX leaves its meaning to the implementation; Linux resolves it
    as ["/"]), and the root ["/"] for any other number of them. *)
Definition double_root (s : string) : bool :=
  String.eqb (take_str 2 s) "//" && negb (String.eqb (take_str 3 s) "///").

(** The parts of a string below the root ["/"]; a root ["//"] is kept as an
    empty first part, which prints as the second slash and which the walk
    below skips. *)
Definition parse_parts (s : string) : list string :=
  (if double_root s then [""] else []) ++ List.filter keeps (split_slash s).

Definition is_absolute (s : string) : bool :=
  match s with
  | String a _ => Ascii.eqb a "/"%char
  | EmptyString => false
  end.

(** [base / s]: an absolute right operand replaces the left one. *)
Definition joinpath (base : Path) (s : string) : Path :=
  if is_absolute s then parse_parts s else base ++ parse_parts s.

(** [str(path)] *)
Fixpoint join_parts (ps : list string) : string :=
  match ps with
  | [] => ""
  | x :: rest => "/" +:+ x +:+ join_parts rest
  end.

Definition str_path (p : Path) : string :=
  match p with
  | [] => "/"
  | [EmptyString] => "//"
  | _ => join_parts p
  end.

(** [Path(s).name]: the last part, or the empty string. *)
Definition path_name (s : string) : string := List.last (parse_parts s) "".

(** [Path(s).suffix] and [Path(s).stem] (pathlib up to Python 3.13):
    [i = name.rfind('.')]; the name splits at [i] when [0 < i < len(name) - 1]. *)
Definition splits_at (name : string) : option nat :=
  match rfind "."%char name with
  | Some i => if (0 <? i)%nat && (i <? String.length name - 1)%nat
              then Some i else None
  | None => None
  end.

Definition suffix (s : string) : string :=
  let name := path_name s in
  match splits_at name with
  | Some i => drop_str i name
  | None => ""
  end.

Definition stem (s : string) : string :=
  let name := path_name s in
  match splits_at name with
  | Some i => take_str i name
  | None => name
  end.

(** ** The filesystem *)

Record stat_result := { st_size : nat; st_mtime : Z }.

Inductive node :=
| File (data : string) (mtime : Z)
| Dir (st : stat_result).

(** Canonical absolute path (no [".."], no ["."]) to node. *)
Abbreviation fs := (gmap Path node).

Definition root_stat : stat_result := {| st_size := 4096; st_mtime := 0 |}.

Definition node_at (σ : fs) (p : Path) : option node :=
  match p with
  | [] => Some (Dir root_stat)
  | _ => σ !! p
  end.

(** One component of a path walk; an empty component (a repeated slash)
    stays where it is, like ["."]. *)
Definition step (cur : Path) (s : string) : Path :=
  if String.eqb s ".." then removelast cur
  else if String.eqb s "." || String.eqb s "" then cur
  else cur ++ [s].

(** Path resolution as the kernel does it: every component is looked up in
    the directory reached so far, which must exist and be a directory;
    [None] stands for ENOENT / ENOTDIR. The last component itself may be
    absent. *)
Fixpoint walk (σ : fs) (cur : Path) (segs : list string) : option Path :=
  match segs with
  | [] => Some cur
  | s :: rest =>
      match node_at σ cur with
      | Some (Dir _) => walk σ (step cur s) rest
      | _ => None
      end
  end.

Definition resolve (σ : fs) (p : Path) : option Path := walk σ [] p.

(** [os.stat(p)] *)
Definition stat_node (σ : fs) (p : Path) : option node :=
  match resolve σ p with
  | Some q => node_at σ q
  | None => None
  end.

Definition stat_of (n : node) : stat_result :=
  match n with
  | File data mtime => {| st_size := String.length data; st_mtime := mtime |}
  | Dir st => st
  end.

(** [p.exists()] and [p.is_file()] *)
Definition exists_ (σ : fs) (p : Path) : bool :=
  match stat_node σ p with Some _ => true | None => false end.

Definition is_file (σ : fs) (p : Path) : bool :=
  match stat_node σ p with Some (File _ _) => true | _ => false end.

(** The name of [p] as an entry of directory [d], when it is one. *)
Definition child_name (d p : Path) : option string :=
  match p with
  | [] => None
  | _ => if bool_decide (removelast p = d) then Some (List.last p "") else None
  end.

(** [os.scandir(d)]: the entries directly in [d]. *)
Definition scandir (σ : fs) (d : Path) : list (string * node) :=
  omap (λ '(p, n), match child_name d p with
                   | Some name => Some (name, n)
                   | None => None
                   end) (map_to_list σ).

(** ** Exceptions and the handler monad *)

Inductive exception :=
| HTTPException (status_code : nat) (detail : message)
| FileNotFoundError (filename : string)
| IsADirectoryError (filename : string)
| UnicodeEncodeError (reason : string)
| AttributeError (msg : string)
| RuntimeError (msg : string)
| ConverterError (msg : string)
(** A message: a literal, or an f-string ending in [str(e)], whose rendering
    is left symbolic. *)
with message :=
| Msg (s : string)
| MsgExc (prefix : string) (e : exception).

(** A computation on the filesystem that returns or raises; what it wrote
    before raising stays written. *)
Definition M (A : Type) : Type := fs → (exception + A) * fs.

Definition ret {A} (a : A) : M A := λ σ, (inr a, σ).

Definition raise {A} (e : exception) : M A := λ σ, (inl e, σ).

Definition bind {A B} (m : M A) (k : A → M B) : M B := λ σ,
  match m σ with
  | (inr a, σ') => k a σ'
  | (inl e, σ') => (inl e, σ')
  end.

(** [try: m except Exception as e: h(e)] *)
Definition try_except {A} (m : M A) (h : exception → M A) : M A := λ σ,
  match m σ with
  | (inl e, σ') => h e σ'
  | r => r
  end.

Notation "x ←' m ; k" := (bind m (λ x, k))
  (at level 20, m at level 100, k at level 200, right associativity, only parsing).
Notation "m ;;' k" := (bind m (λ _, k))
  (at level 100, k at level 200, right associativity, only parsing).

Definition path_exists (p : Path) : M bool := λ σ, (inr (exists_ σ p), σ).

Definition path_is_file (p : Path) : M bool := λ σ, (inr (is_file σ p), σ).

(** [with open(p, 'wb') as f: f.write(data)]: creates or truncates the file
    the path resolves to and stores the bytes. Bytes are written as they are,
    so once the file is open the write cannot raise, and the two are one
    step. *)
Definition open_write (p : Path) (data : string) (now : Z) : M unit := λ σ,
  match resolve σ p with
  | None => (inl (FileNotFoundError (str_path p)), σ)
  | Some q =>
      match node_at σ q with
      | Some (Dir _) => (inl (IsADirectoryError (str_path p)), σ)
      | _ => (inr (), <[q := File data now]> σ)
      end
  end.

(** [open(p, 'w', encoding='utf-8')]: creates the file the path resolves to,
    or truncates it; the handle is the file reached. *)
Definition open_w (p : Path) (now : Z) : M Path := λ σ,
  match resolve σ p with
  | None => (inl (FileNotFoundError (str_path p)), σ)
  | Some q =>
      match node_at σ q with
      | Some (Dir _) => (inl (IsADirectoryError (str_path p)), σ)
      | _ => (inr q, <[q := File "" now]> σ)
      end
  end.

(** [f.write(text)] on such a handle, and the [close] that ends the [with]
    block: the text is encoded first, so a text that UTF-8 cannot encode
    raises with nothing written, and the file stays as [open] left it. *)
Definition write_str (f : Path) (text : str) (now : Z) : M unit := λ σ,
  match utf8_encode text with
  | Some data => (inr (), <[f := File data now]> σ)
  | None => (inl (UnicodeEncodeError "surrogates not allowed"), σ)
  end.

(** [with open(p, 'w', encoding='utf-8') as f: f.write(text)] *)
Definition open_write_text (p : Path) (text : str) (now : Z) : M unit :=
  f ←' open_w p now;
  write_str f text now.

(** [p.unlink()] *)
Definition unlink (p : Path) : M unit := λ σ,
  match resolve σ p with
  | None => (inl (FileNotFoundError (str_path p)), σ)
  | Some q =>
      match node_at σ q with
      | Some (File _ _) => (inr (), delete q σ)
      | Some (Dir _) => (inl (IsADirectoryError (str_path p)), σ)
      | None => (inl (FileNotFoundError (str_path p)), σ)
      end
  end.

(** ** uuid *)

Definition hex_digit (d : N) : ascii :=
  match d with
  | 0 => "0" | 1 => "1" | 2 => "2" | 3 => "3" | 4 => "4" | 5 => "5"
  | 6 => "6" | 7 => "7" | 8 => "8" | 9 => "9" | 10 => "a" | 11 => "b"
  | 12 => "c" | 13 => "d" | 14 => "e" | _ => "f"
  end%N%char.

(** ['%0kx' % n] for [n < 16^k]: [k] hexadecimal digits, most significant
    first. *)
Fixpoint hex_fixed (k : nat) (n : N) : string :=
  match k with
  | O => ""
  | S k' => String (hex_digit ((n / 16 ^ N.of_nat k') mod 16)%N) (hex_fixed k' n)
  end.

(** [str(u)] for a [UUID] whose 128-bit integer is [u]:
    [hex = '%032x' % u.int], printed as 8-4-4-4-12. *)
Definition str_uuid (u : N) : string :=
  let hex := hex_fixed 32 u in
  take_str 8 hex +:+ "-" +:+ take_str 4 (drop_str 8 hex) +:+ "-" +:+
  take_str 4 (drop_str 12 hex) +:+ "-" +:+ take_str 4 (drop_str 16 hex) +:+ "-" +:+
  drop_str 20 hex.

(** [str(uuid.uuid4())[:8]], [u] being the integer of the UUID drawn for the
    request. *)
Definition unique_id (u : N) : string := take_str 8 (str_uuid u).

(** ** Responses *)

Record file_entry := {
  filename : string;
  size : nat;
  modified : Z;
  url : string   (* "convert_url" or "download_url" *)
}.

Inductive content :=
| Uploaded (filename file_path : string) (file_size : nat)
| Converted (original_filename converted_filename : string)
    (input_path : option string) (output_path : string) (file_size : nat)
    (original_extension conversion_id : string)
| Files (files : list file_entry) (total_files : nat)
| Deleted (msg : string)
| FileResponse (path filename media_type : string) (data : string)
| Detail (detail : message).

Record response := { status : nat; body : content }.

(** What the framework sends for a handler's outcome: the returned content
    with status 200, an [HTTPException] as its status and detail, anything
    else as a plain 500. *)
Definition respond (r : (exception + content) * fs) : response * fs :=
  match r with
  | (inr c, σ) => ({| status := 200; body := c |}, σ)
  | (inl (HTTPException code d), σ) => ({| status := code; body := Detail d |}, σ)
  | (inl _, σ) => ({| status := 500; body := Detail (Msg "Internal Server Error") |}, σ)
  end.

(** ** The external converter *)

Record DocumentConverterResult := { text_content : str }.

(** [md_converter.convert(path)] raises or returns a result, which the
    handlers also test for falsiness ([None] here). *)
Inductive conversion :=
| Raises (msg : string)
| Returns (result : option DocumentConverterResult).

Abbreviation converter := (fs → string → conversion).

(** ** app.py *)

Definition UPLOAD_DIR : Path := ["app"; "uploads"].
Definition CONVERTED_DIR : Path := ["app"; "converted"].

(** Truthiness of an [Optional[str]]: [None] and the empty string are falsy. *)
Definition truthy (o : option string) : bool :=
  match o with
  | Some s => negb (String.eqb s "")
  | None => false
  end.

(** [f"{o}"] for an [Optional[str]] known to be truthy. *)
Definition fmt (o : option string) : string :=
  match o with
  | Some s => s
  | None => "None"
  end.

(** [except HTTPException: raise / except Exception as e: raise HTTPException(500, prefix + str(e))] *)
Definition reraise_or_500 {A} (prefix : string) (e : exception) : M A :=
  match e with
  | HTTPException _ _ => raise e
  | _ => raise (HTTPException 500 (MsgExc prefix e))
  end.

Section Handlers.

Variable md_converter : converter.

Definition convert (path : string) : M (option DocumentConverterResult) := λ σ,
  match md_converter σ path with
  | Raises msg => (inl (ConverterError msg), σ)
  | Returns r => (inr r, σ)
  end.

(** POST /convert-by-filename *)
Definition convert_file_by_name (file_name : string) (output_filename : option string)
    (uuid4 : N) (now : Z) : M content :=
  try_except
    (if String.eqb file_name "" then
       raise (HTTPException 400 (Msg "No file_name provided"))
     else
       let file_name := basename file_name in
       let input_file_path := joinpath UPLOAD_DIR file_name in
       present ←' path_exists input_file_path;
       if negb present then
         raise (HTTPException 404 (Msg ("File '" +:+ file_name +:+ "' not found in uploads directory")))
       else
       regular ←' path_is_file input_file_path;
       if negb regular then
         raise (HTTPException 400 (Msg ("'" +:+ file_name +:+ "' is not a valid file")))
       else
       let unique_id := unique_id uuid4 in
       let original_name := stem file_name in
       let file_extension := suffix file_name in
       result ←' try_except
         (result ←' convert (str_path input_file_path);
          match result with
          | None => raise (HTTPException 422 (Msg ("Unable to convert file: " +:+ file_name)))
          | Some r =>
              if is_empty (text_content r) then
                raise (HTTPException 422 (Msg ("Unable to convert file: " +:+ file_name)))
              else ret r
          end)
         (λ e, raise (HTTPException 422 (MsgExc "Conversion failed: " e)));
       let md_filename :=
         if truthy output_filename then fmt output_filename +:+ ".md"
         else original_name +:+ "_" +:+ unique_id +:+ ".md" in
       let output_path := joinpath CONVERTED_DIR md_filename in
       open_write_text output_path (text_content result) now;;'
       ret (Converted file_name md_filename (Some (str_path input_file_path))
              (str_path output_path) (length (text_content result))
              file_extension unique_id))
    (reraise_or_500 "Internal server error: ").

(** GET /convert-by-filename/{file_name} *)
Definition convert_file_by_name_get (file_name : string) (output_filename : option string)
    (uuid4 : N) (now : Z) : M content :=
  try_except
    (if String.eqb file_name "" then
       raise (HTTPException 400 (Msg "No file_name provided"))
     else
       let file_name := basename file_name in
       let input_file_path := joinpath UPLOAD_DIR file_name in
       present ←' path_exists input_file_path;
       if negb present then
         raise (HTTPException 404 (Msg ("File '" +:+ file_name +:+ "' not found in uploads directory")))
       else
       regular ←' path_is_file input_file_path;
       if negb regular then
         raise (HTTPException 400 (Msg ("'" +:+ file_name +:+ "' is not a valid file")))
       else
       let unique_id := unique_id uuid4 in
       let original_name := stem file_name in
       let file_extension := suffix file_name in
       result ←' try_except
         (result ←' convert (str_path input_file_path);
          match result with
          | None => raise (HTTPException 422 (Msg ("Unable to convert file: " +:+ file_name)))
          | Some r =>
              if is_empty (text_content r) then
                raise (HTTPException 422 (Msg ("Unable to convert file: " +:+ file_name)))
              else ret r
          end)
         (λ e, raise (HTTPException 422 (MsgExc "Conversion failed: " e)));
       let md_filename :=
         if truthy output_filename then fmt output_filename +:+ ".md"
         else original_name +:+ "_" +:+ unique_id +:+ ".md" in
       let output_path := joinpath CONVERTED_DIR md_filename in
       open_write_text output_path (text_content result) now;;'
       ret (Converted file_name md_filename (Some (str_path input_file_path))
              (str_path output_path) (length (text_content result))
              file_extension unique_id))
    (reraise_or_500 "Internal server error: ").

(** POST /upload; a missing filename ([None]) is the empty string here, both
    being falsy. *)
Definition upload_file (file_filename file_content : string) (now : Z) : M content :=
  try_except
    (if String.eqb file_filename "" then
       raise (HTTPException 400 (Msg "No file provided"))
     else
       let filename := basename file_filename in
       let file_path := joinpath UPLOAD_DIR filename in
       present ←' path_exists file_path;
       if present then
         raise (HTTPException 409 (Msg ("File '" +:+ filename +:+ "' already exists")))
       else
       open_write file_path file_content now;;'
       ret (Uploaded filename (str_path file_path) (String.length file_content)))
    (reraise_or_500 "Upload failed: ").

(** GET /list-uploads *)
Definition list_uploaded_files : M content :=
  try_except
    (λ σ,
       match stat_node σ UPLOAD_DIR with
       | Some (Dir _) =>
           let files :=
             omap (λ '(name, n),
                     match n with
                     | File _ _ =>
                         Some {| filename := name; size := st_size (stat_of n);
                                 modified := st_mtime (stat_of n);
                                 url := "/convert-by-filename/" +:+ name |}
                     | Dir _ => None
                     end) (scandir σ UPLOAD_DIR) in
           (inr (Files files (length files)), σ)
       | _ => (inl (FileNotFoundError (str_path UPLOAD_DIR)), σ)
       end)
    (λ e, raise (HTTPException 500 (MsgExc "Error listing files: " e))).

(** POST /convert. [temp_file_path] is assigned before anything that can
    raise a non-HTTP exception, so the cleanup of the [except Exception]
    branch always sees it set. *)
Definition convert_file (file_filename file_content : string)
    (output_filename : option string) (uuid4 : N) (now : Z) : M content :=
  let unique_id := unique_id uuid4 in
  let temp_file_path := joinpath UPLOAD_DIR (unique_id +:+ "_" +:+ file_filename) in
  try_except
    (if String.eqb file_filename "" then
       raise (HTTPException 400 (Msg "No file provided"))
     else
       let original_name := stem file_filename in
       let file_extension := suffix file_filename in
       open_write temp_file_path file_content now;;'
       result ←' try_except
         (result ←' convert (str_path temp_file_path);
          match result with
          | None => raise (AttributeError "'NoneType' object has no attribute 'text_content'")
          | Some r =>
              if is_empty (text_content r) then
                raise (HTTPException 422 (Msg ("Unable to convert file: " +:+ file_filename)))
              else ret r
          end)
         (λ e, raise (HTTPException 422 (MsgExc "Conversion failed: " e)));
       let md_filename :=
         if truthy output_filename then fmt output_filename +:+ ".md"
         else original_name +:+ "_" +:+ unique_id +:+ ".md" in
       let output_path := joinpath CONVERTED_DIR md_filename in
       open_write_text output_path (text_content result) now;;'
       present ←' path_exists temp_file_path;
       (if present then unlink temp_file_path else ret ());;'
       ret (Converted file_filename md_filename None
              (str_path output_path) (length (text_content result))
              file_extension unique_id))
    (λ e,
       match e with
       | HTTPException _ _ => raise e
       | _ =>
           present ←' path_exists temp_file_path;
           (if present then unlink temp_file_path else ret ());;'
           raise (HTTPException 500 (MsgExc "Internal server error: " e))
       end).

(** GET /download/{filename}. [FileResponse] reads the file when the
    response is sent and refuses what is not a regular file. *)
Definition download_converted_file (filename : string) : M content :=
  let file_path := joinpath CONVERTED_DIR filename in
  present ←' path_exists file_path;
  if negb present then raise (HTTPException 404 (Msg "File not found"))
  else λ σ,
    match stat_node σ file_path with
    | Some (File data _) =>
        (inr (FileResponse (str_path file_path) filename "text/markdown" data), σ)
    | _ => (inl (RuntimeError ("File at path " +:+ str_path file_path +:+ " is not a file.")), σ)
    end.

(** [CONVERTED_DIR.glob("*.md")]: the entries of the directory whose name
    ends in [".md"], whatever their kind; nothing when there is no such
    directory. *)
Definition glob_md (σ : fs) (d : Path) : list (string * node) :=
  match stat_node σ d with
  | Some (Dir _) => List.filter (λ '(name, _), endswith name ".md") (scandir σ d)
  | _ => []
  end.

(** GET /list-converted *)
Definition list_converted_files : M content :=
  try_except
    (λ σ,
       let files :=
         List.map (λ '(name, n),
                     {| filename := name; size := st_size (stat_of n);
                        modified := st_mtime (stat_of n);
                        url := "/download/" +:+ name |})
                  (glob_md σ CONVERTED_DIR) in
       (inr (Files files (length files)), σ))
    (λ e, raise (HTTPException 500 (MsgExc "Error listing files: " e))).

(** DELETE /delete/{filename} *)
Definition delete_converted_file (filename : string) : M content :=
  let file_path := joinpath CONVERTED_DIR filename in
  present ←' path_exists file_path;
  if negb present then raise (HTTPException 404 (Msg "File not found"))
  else
    try_except
      (unlink file_path;;'
       ret (Deleted ("File " +:+ filename +:+ " deleted successfully")))
      (λ e, raise (HTTPException 500 (MsgExc "Error deleting file: " e))).

End Handlers.

(** ** The layout the service expects *)

(** [p.is_dir()] *)
Definition is_dir (σ : fs) (p : Path) : bool :=
  match stat_node σ p with Some (Dir _) => true | _ => false end.

(** Both directories exist, as [mkdir(exist_ok=True)] leaves them at
    start-up. *)
Definition layout (σ : fs) : bool := is_dir σ UPLOAD_DIR && is_dir σ CONVERTED_DIR.

(** Directory [d] is flat: none of its entries is a directory. *)
Definition no_subdirs (σ : fs) (d : Path) : bool :=
  forallb (λ '(_, n), match n with Dir _ => false | File _ _ => true end) (scandir σ d).

(** ** Vocabulary of the properties *)

Definition slash_free (s : string) : Prop := rfind "/"%char s = None.

(** A name that can be a directory entry. *)
Definition segment (s : string) : bool :=
  match rfind "/"%char s with
  | None => negb (String.eqb s "") && negb (String.eqb s ".") && negb (String.eqb s "..")
  | Some _ => false
  end.

(** A component that a walk appends to where it is. *)
Definition regular (s : string) : Prop := s ≠ ".." ∧ s ≠ "." ∧ s ≠ "".

Definition empty_output (c : conversion) : bool :=
  match c with
  | Returns None => true
  | Returns (Some r) => is_empty (text_content r)
  | Raises _ => false
  end.

(** The response reports [name] as the converted file, with the length of
    [text] in characters as its size, and the Converted directory holds the
    UTF-8 encoding of [text] under that name. *)
Definition converted_as (r : response * fs) (name : string) (text : str) (now : Z) : Prop :=
  (∃ orig inp outp ext cid,
     body r.1 = Converted orig name inp outp (length text) ext cid) ∧
  ∃ data, utf8_encode text = Some data ∧
          r.2 !! (CONVERTED_DIR ++ [name]) = Some (File data now).

(** The converter turns the file at [path] into a non-empty text that UTF-8
    can encode. *)
Definition converts (md : converter) (σ : fs) (path : string) : Prop :=
  ∃ res data, md σ path = Returns (Some res) ∧ text_content res ≠ [] ∧
              utf8_encode (text_content res) = Some data.

(** What a conversion by filename needs to succeed with output [name]: a
    regular file under the sanitized name in Uploads, a converter that
    converts it, and a Converted directory in which [name] is not a
    directory. *)
Definition by_name_ready (md : converter) (σ : fs) (fn name : string) : Prop :=
  fn ≠ "" ∧
  is_file σ (joinpath UPLOAD_DIR (basename fn)) = true ∧
  converts md σ (str_path (joinpath UPLOAD_DIR (basename fn))) ∧
  is_dir σ CONVERTED_DIR = true ∧
  ∀ st, σ !! (CONVERTED_DIR ++ [name]) ≠ Some (Dir st).

(** What POST /convert needs to succeed with output [name]: a file name
    without separator, both directories in place, Uploads flat, a converter
    that converts the temporary file once it is saved, and [name] not a
    directory of Converted. *)
Definition direct_ready (md : converter) (σ : fs) (fn data : string) (u : N) (now : Z)
    (name : string) : Prop :=
  let temp := UPLOAD_DIR ++ [unique_id u +:+ "_" +:+ fn] in
  fn ≠ "" ∧ rfind "/"%char fn = None ∧
  layout σ = true ∧ no_subdirs σ UPLOAD_DIR = true ∧
  converts md (<[temp := File data now]> σ) (str_path temp) ∧
  ∀ st, σ !! (CONVERTED_DIR ++ [name]) ≠ Some (Dir st).

Definition converted_entry (name : string) (n : node) : file_entry :=
  {| filename := name; size := st_size (stat_of n); modified := st_mtime (stat_of n);
     url := "/download/" +:+ name |}.

(** No directory is created, removed or changed between two states. *)
Definition same_dirs (σ σ' : fs) : Prop :=
  ∀ p st, σ' !! p = Some (Dir st) ↔ σ !! p = Some (Dir st).

Definition keeps_dirs {A} (m : M A) : Prop := ∀ σ, same_dirs σ (m σ).2.

(** ** Sample data *)

Definition dir0 : node := Dir {| st_size := 4096; st_mtime := 0 |}.

(** The two directories as created at start-up, both empty. *)
Definition fresh : fs :=
  <[CONVERTED_DIR := dir0]> (<[UPLOAD_DIR := dir0]> (<[["app"] := dir0]> ∅)).

(** [data.decode('latin-1')]: every byte is the code point of its value. *)
Fixpoint latin1_decode (data : string) : str :=
  match data with
  | EmptyString => []
  | String b rest => N_of_ascii b :: latin1_decode rest
  end.

(** A converter that returns the file it is given, read as Latin-1 text, and
    fails on a missing one. *)
Definition echo : converter := λ σ path,
  match stat_node σ (parse_parts path) with
  | Some (File data _) => Returns (Some {| text_content := latin1_decode data |})
  | _ => Raises "not a file"
  end.

Definition silent : converter := λ _ _, Returns (Some {| text_content := [] |}).

(** A converter that returns the same text for every file. *)
Definition says (text : str) : converter := λ _ _, Returns (Some {| text_content := text |}).

Definition lone_surrogate : str := [0xd800%N].

(** One upload waiting in Uploads. *)
Definition one_upload : fs := <[UPLOAD_DIR ++ ["a.txt"] := File "abc" 7]> fresh.

(** A directory sitting in Uploads. *)
Definition with_subdir : fs := <[UPLOAD_DIR ++ ["docs"] := dir0]> fresh.

(** Converted holding a Markdown file and a stray text file. *)
Definition mixed : fs :=
  <[CONVERTED_DIR ++ ["notes.txt"] := File "plain" 3]>
    (<[CONVERTED_DIR ++ ["a.md"] := File "# a" 2]> fresh).

(** A directory named like a Markdown file sitting in Converted. *)
Definition with_md_dir : fs := <[CONVERTED_DIR ++ ["d.md"] := dir0]> mixed.

(** One upload waiting, and an earlier conversion saved as [report.md]. *)
Definition with_report : fs := <[CONVERTED_DIR ++ ["report.md"] := File "# old" 2]> one_upload.

Definition failing : converter := λ _ _, Raises "unsupported format".

(** Two version-4 UUIDs that agree on their first eight hexadecimal digits:
    [12345678-0000-4000-8000-000000000000] and
    [12345678-9abc-4def-8123-456789abcdef]. *)
Definition sample_uuid : N := 0x12345678000040008000000000000000.
Definition other_uuid : N := 0x123456789abc4def8123456789abcdef.

(** ** Proof automation *)

Ltac red_handler := cbv beta iota zeta; cbn [negb fst snd status body].

Ltac run_by_name :=
  unfold convert_file_by_name, try_except, bind, path_exists, path_is_file,
    convert, raise, ret, reraise_or_500, respond; red_handler.

Ltac run_convert_file :=
  unfold convert_file, try_except, bind, path_exists, convert, raise, ret, respond;
  red_handler.

Implicit Types (md : converter) (fn data name s : string) (out : option string) (u : N) (now : Z)
  (text : str).

(** * Properties *)

(** ** The path functions on sample names *)

Example basename_traversal : basename "../../etc/passwd" = "passwd".
Proof. reflexivity. Qed.

Example basename_dotdot : basename "a/.." = "..".
Proof. reflexivity. Qed.

Example basename_trailing : basename "a/b/" = "".
Proof. reflexivity. Qed.

Example stem_suffix_tar : (stem "x/archive.tar.gz", suffix "x/archive.tar.gz") = ("archive.tar", ".gz").
Proof. reflexivity. Qed.

Example stem_hidden : (stem ".bashrc", suffix ".bashrc") = (".bashrc", "").
Proof. reflexivity. Qed.

Example joinpath_abs : joinpath ["app"; "converted"] "/tmp/x.md" = ["tmp"; "x.md"].
Proof. reflexivity. Qed.

(** Exactly two leading slashes are kept when the path is printed; the
    file reached is the same. *)
Example joinpath_roots :
  str_path (joinpath CONVERTED_DIR "//tmp/x.md") = "//tmp/x.md" ∧
  str_path (joinpath CONVERTED_DIR "///tmp/x.md") = "/tmp/x.md" ∧
  str_path (joinpath CONVERTED_DIR "//") = "//" ∧
  str_path (joinpath CONVERTED_DIR "a//b") = "/app/converted/a/b" ∧
  ∀ σ : fs, resolve σ (joinpath CONVERTED_DIR "//tmp/x.md") =
            resolve σ (joinpath CONVERTED_DIR "/tmp/x.md").
Proof. repeat split; reflexivity. Qed.

(** [A], [é], the euro sign and an emoji take one to four bytes; a lone
    surrogate cannot be encoded. *)
Example utf8_samples :
  utf8_encode [0x41; 0xe9; 0x20ac; 0x1f600]%N =
    Some (String (byte 0x41)
         (String (byte 0xc3) (String (byte 0xa9)
         (String (byte 0xe2) (String (byte 0x82) (String (byte 0xac)
         (String (byte 0xf0) (String (byte 0x9f) (String (byte 0x98) (String (byte 0x80)
          "")))))))))) ∧
  utf8_encode lone_surrogate = None ∧
  utf8_encode (latin1_decode "any ASCII text") = Some "any ASCII text".
Proof. repeat split; vm_compute; reflexivity. Qed.

(** ** Strings *)

Lemma rfind_None_cons c a r :
  rfind c (String a r) = None ↔ a ≠ c ∧ rfind c r = None.
Proof.
  simpl. destruct (rfind c r) as [i|].
  - split; [discriminate | intros [_ ?]; discriminate].
  - destruct (Ascii.eqb_spec a c); split; try discriminate; intuition congruence.
Qed.

Lemma slash_free_app a b : slash_free (a +:+ b) ↔ slash_free a ∧ slash_free b.
Proof.
  unfold slash_free. induction a as [|c a IH].
  - simpl. intuition.
  - change (String c a +:+ b) with (String c (a +:+ b)).
    rewrite !rfind_None_cons. tauto.
Qed.

Lemma slash_free_drop n s : slash_free s → slash_free (drop_str n s).
Proof.
  unfold slash_free. revert s. induction n as [|n IH]; intros [|c s]; simpl drop_str; try done.
  rewrite rfind_None_cons. intros [_ ?]. by apply IH.
Qed.

Lemma slash_free_take n s : slash_free s → slash_free (take_str n s).
Proof.
  unfold slash_free. revert s. induction n as [|n IH]; intros [|c s]; simpl take_str; try done.
  rewrite !rfind_None_cons. intros [? ?]. split; [done | by apply IH].
Qed.

Lemma length_app_str a b :
  String.length (a +:+ b) = String.length a + String.length b.
Proof. induction a as [|c a IH]; simpl; [done | by rewrite IH]. Qed.

Lemma length_take_str n s : n ≤ String.length s → String.length (take_str n s) = n.
Proof.
  revert s. induction n as [|n IH]; intros [|c s]; simpl; try lia.
  intros ?. rewrite IH; lia.
Qed.

Lemma app_str_inj_l a b c : a +:+ b = a +:+ c → b = c.
Proof. induction a as [|x a IH]; simpl; [done | intros [= ?]; auto]. Qed.

Lemma eqb_str_false a b : a ≠ b → String.eqb a b = false.
Proof. intros ?. by apply String.eqb_neq. Qed.




Lemma basename_slash_free p : slash_free (basename p).
Proof.
  unfold slash_free, basename. induction p as [|a r IH]; [done|].
  simpl rfind. destruct (rfind "/"%char r) as [i|] eqn:Hr.
  - exact IH.
  - destruct (Ascii.eqb_spec a "/"%char) as [->|Hne]; simpl drop_str; [done|].
    by apply rfind_None_cons.
Qed.

Lemma basename_id s : slash_free s → basename s = s.
Proof. unfold slash_free, basename. by intros ->. Qed.

Lemma split_slash_free s : slash_free s → split_slash s = [s].
Proof.
  unfold slash_free. induction s as [|a r IH]; [done|].
  rewrite rfind_None_cons. intros [Hne Hr]. simpl.
  destruct (Ascii.eqb_spec a "/"%char); [done|]. by rewrite IH.
Qed.

Lemma split_slash_pieces s x : x ∈ split_slash s → slash_free x.
Proof.
  revert x. induction s as [|a r IH]; intros x; simpl.
  - by intros ->%list_elem_of_singleton.
  - destruct (Ascii.eqb_spec a "/"%char) as [->|Hne].
    + intros [->|?]%elem_of_cons; [done | by apply IH].
    + destruct (split_slash r) as [|seg segs] eqn:Hs.
      * by intros ->%list_elem_of_singleton; apply rfind_None_cons.
      * intros [->|?]%elem_of_cons.
        -- apply rfind_None_cons. split; [done|]. apply IH. by left.
        -- apply IH. by right.
Qed.

Lemma parse_parts_pieces s x : x ∈ parse_parts s → slash_free x ∧ x ≠ ".".
Proof.
  unfold parse_parts. rewrite elem_of_app. intros [Hr|Hin].
  - destruct (double_root s); [|by apply elem_of_nil in Hr].
    by apply list_elem_of_singleton in Hr as ->.
  - rewrite list_elem_of_In, filter_In, <-list_elem_of_In in Hin.
    destruct Hin as [Hin Hk]. split; [by eapply split_slash_pieces|].
    unfold keeps in Hk. apply andb_prop in Hk as [H1 H2].
    intros ->; simpl in *; done.
Qed.

Lemma relative_single_root s : is_absolute s = false → double_root s = false.
Proof.
  destruct s as [|a r]; [done|]. simpl. intros Ha%Ascii.eqb_neq.
  unfold double_root. apply andb_false_intro1.
  change (take_str 2 (String a r)) with (String a (take_str 1 r)).
  apply String.eqb_neq. by intros [= ?].
Qed.

Lemma slash_free_single_root s : slash_free s → double_root s = false.
Proof.
  intros Hs. apply relative_single_root.
  destruct s as [|a r]; [done|]. apply rfind_None_cons in Hs as [Hne _].
  simpl. by apply Ascii.eqb_neq.
Qed.

(** ** Paths *)

Lemma segment_spec s :
  segment s = true ↔ slash_free s ∧ s ≠ "" ∧ s ≠ "." ∧ s ≠ "..".
Proof.
  unfold segment, slash_free. destruct (rfind "/"%char s).
  { split; [discriminate | intros [? _]; discriminate]. }
  rewrite !andb_true_iff, !negb_true_iff, !String.eqb_neq. tauto.
Qed.

Lemma slash_free_relative s : slash_free s → is_absolute s = false.
Proof.
  destruct s as [|a r]; [done|]. intros [Hne _]%rfind_None_cons. simpl.
  by destruct (Ascii.eqb_spec a "/"%char).
Qed.

Lemma parse_parts_name s : slash_free s → s ≠ "" → s ≠ "." → parse_parts s = [s].
Proof.
  intros Hs H1 H2. unfold parse_parts.
  rewrite slash_free_single_root, split_slash_free by done.
  simpl. unfold keeps. by rewrite !eqb_str_false.
Qed.

Lemma joinpath_name d s : slash_free s → s ≠ "" → s ≠ "." → joinpath d s = d ++ [s].
Proof.
  intros Hs H1 H2. unfold joinpath.
  by rewrite slash_free_relative, parse_parts_name.
Qed.

Lemma joinpath_segment d s : segment s = true → joinpath d s = d ++ [s].
Proof. intros (? & ? & ? & ?)%segment_spec. by apply joinpath_name. Qed.

Lemma step_regular cur s : regular s → step cur s = cur ++ [s].
Proof. intros (? & ? & ?). unfold step. by rewrite !eqb_str_false. Qed.

Lemma segment_regular s : segment s = true → regular s.
Proof. intros (_ & ? & ? & ?)%segment_spec. by repeat split. Qed.

Lemma child_name_spec d p name : child_name d p = Some name ↔ p = d ++ [name].
Proof.
  unfold child_name. split.
  - destruct p as [|x p]; [done|]. case_bool_decide as Hd; [|done].
    intros [= <-]. rewrite <-Hd.
    exact (app_removelast_last (l := x :: p) "" ltac:(discriminate)).
  - intros ->. destruct (d ++ [name]) eqn:Hp; [by destruct d|]. rewrite <-Hp.
    rewrite removelast_last, last_last. by rewrite bool_decide_true.
Qed.

(** ** Filesystem *)

Lemma scandir_spec (σ : fs) d name n :
  (name, n) ∈ scandir σ d ↔ σ !! (d ++ [name]) = Some n.
Proof.
  unfold scandir. rewrite list_elem_of_omap. split.
  - intros ([p n'] & Hin%elem_of_map_to_list & Hc).
    destruct (child_name d p) as [name'|] eqn:Hn; [|done].
    injection Hc as -> ->. apply child_name_spec in Hn. by subst.
  - intros Hl. exists (d ++ [name], n). split; [by apply elem_of_map_to_list|].
    by rewrite (proj2 (child_name_spec d _ name) eq_refl).
Qed.

Lemma scandir_NoDup (σ : fs) d : NoDup (scandir σ d).*1.
Proof.
  unfold scandir.
  assert (Hnd : NoDup (map_to_list σ).*1) by apply NoDup_fst_map_to_list.
  induction (map_to_list σ) as [|[p n] l IH]; [constructor|].
  rewrite fmap_cons in Hnd. apply NoDup_cons in Hnd as [Hp Hl].
  simpl omap. destruct (child_name d p) as [name|] eqn:Hn; [|by apply IH].
  rewrite fmap_cons. apply NoDup_cons. split; [|by apply IH].
  intros ([name' n'] & Heq & Hin)%list_elem_of_fmap. simpl in Heq. subst name'.
  apply list_elem_of_omap in Hin as ([p' n''] & Hin & Hc).
  destruct (child_name d p') as [name''|] eqn:Hn'; [|done].
  injection Hc as -> ->. apply child_name_spec in Hn, Hn'. subst.
  apply Hp. apply list_elem_of_fmap. by exists (d ++ [name], n').
Qed.

Lemma no_subdirs_spec (σ : fs) d name st :
  no_subdirs σ d = true → σ !! (d ++ [name]) ≠ Some (Dir st).
Proof.
  unfold no_subdirs. rewrite forallb_forall. intros Hall Hl.
  apply scandir_spec, list_elem_of_In, Hall in Hl. done.
Qed.

Lemma walk_app (σ : fs) cur a b :
  walk σ cur (a ++ b) =
  match walk σ cur a with Some q => walk σ q b | None => None end.
Proof.
  revert cur. induction a as [|s a IH]; intros cur; simpl; [done|].
  destruct (node_at σ cur) as [[]|]; auto.
Qed.

Lemma walk_regular (σ : fs) cur segs q :
  Forall regular segs → walk σ cur segs = Some q → q = cur ++ segs.
Proof.
  intros Hall. revert cur. induction Hall as [|s segs Hs _ IH]; intros cur; simpl.
  - intros [= <-]. by rewrite app_nil_r.
  - destruct (node_at σ cur) as [[]|]; try done.
    rewrite step_regular by done. intros ->%IH. by rewrite <-app_assoc.
Qed.

Lemma regular_UPLOAD_DIR : Forall regular UPLOAD_DIR.
Proof. repeat constructor; done. Qed.

Lemma regular_CONVERTED_DIR : Forall regular CONVERTED_DIR.
Proof. repeat constructor; done. Qed.

(** An existing directory with a plain path resolves to itself. *)
Lemma is_dir_resolve (σ : fs) d :
  Forall regular d → is_dir σ d = true →
  resolve σ d = Some d ∧ ∃ st, node_at σ d = Some (Dir st).
Proof.
  unfold is_dir, stat_node, resolve. intros Hd.
  destruct (walk σ [] d) as [q|] eqn:Hw; [|done].
  apply walk_regular in Hw as ->; [|done]. simpl.
  destruct (node_at σ d) as [[|st]|]; try done. eauto.
Qed.

(** Below an existing directory, resolution continues from it. *)
Lemma resolve_below (σ : fs) d segs :
  Forall regular d → is_dir σ d = true →
  resolve σ (d ++ segs) = walk σ d segs.
Proof.
  intros Hd Hdir. destruct (is_dir_resolve σ d Hd Hdir) as [Hr _].
  unfold resolve in *. by rewrite walk_app, Hr.
Qed.

Lemma resolve_child (σ : fs) d s :
  Forall regular d → is_dir σ d = true → regular s →
  resolve σ (d ++ [s]) = Some (d ++ [s]).
Proof.
  intros Hd Hdir Hs. rewrite resolve_below by done.
  destruct (is_dir_resolve σ d Hd Hdir) as [_ [st Hn]]. simpl.
  by rewrite Hn, step_regular.
Qed.

Lemma resolve_child_inv (σ : fs) d s q :
  Forall regular d → regular s → resolve σ (d ++ [s]) = Some q → q = d ++ [s].
Proof.
  intros Hd Hs Hr. apply walk_regular in Hr; [done|].
  apply Forall_app. split; [done | by constructor].
Qed.

Lemma node_at_child (σ : fs) d s : node_at σ (d ++ [s]) = σ !! (d ++ [s]).
Proof. by destruct d. Qed.

Lemma layout_dirs σ : layout σ = true → is_dir σ UPLOAD_DIR = true ∧ is_dir σ CONVERTED_DIR = true.
Proof. unfold layout. by intros ?%andb_prop. Qed.

Lemma walk_frame (σ σ' : fs) cur segs :
  Forall regular segs →
  (∀ p, p `prefix_of` cur ++ segs → node_at σ' p = node_at σ p) →
  walk σ' cur segs = walk σ cur segs.
Proof.
  intros Hall. revert cur. induction Hall as [|s segs Hs _ IH]; intros cur Hf; [done|].
  simpl. rewrite Hf by (by apply prefix_app_r).
  destruct (node_at σ cur) as [[]|]; try done.
  rewrite step_regular by done. apply IH. intros p Hp. apply Hf.
  by rewrite <-app_assoc in Hp.
Qed.

(** Whether [d] is a directory depends on the nodes along [d] only. *)
Lemma is_dir_frame (σ σ' : fs) d :
  Forall regular d → (∀ p, p `prefix_of` d → σ' !! p = σ !! p) →
  is_dir σ' d = is_dir σ d.
Proof.
  intros Hd Hf. unfold is_dir, stat_node, resolve.
  assert (Hn : ∀ p, p `prefix_of` d → node_at σ' p = node_at σ p).
  { intros [|x p] Hp; [done|]. by apply Hf. }
  rewrite (walk_frame σ σ' [] d) by done.
  destruct (walk σ [] d) as [q|] eqn:Hw; [|done].
  apply walk_regular in Hw as ->; [|done]. by rewrite Hn.
Qed.

Lemma parent_is_dir (σ : fs) d :
  Forall regular d → is_dir σ d = true → ∃ st, node_at σ (removelast d) = Some (Dir st).
Proof.
  destruct d as [|x d0 _] using rev_ind; [simpl; eauto|].
  intros [Hd0 _]%Forall_app. rewrite removelast_last.
  unfold is_dir, stat_node, resolve. rewrite walk_app.
  destruct (walk σ [] d0) as [q|] eqn:Hw; [|done].
  apply walk_regular in Hw as ->; [|done]. simpl.
  destruct (node_at σ d0) as [[|st]|]; try done. eauto.
Qed.

(** A sanitized name under which nothing exists in directory [d] is a plain
    entry name. *)
Lemma absent_is_segment (σ : fs) d s :
  Forall regular d → is_dir σ d = true → slash_free s →
  exists_ σ (joinpath d s) = false → segment s = true.
Proof.
  intros Hd Hdir Hs Hex. apply segment_spec. split; [done|].
  destruct (is_dir_resolve σ d Hd Hdir) as [Hr [st Hn]].
  unfold exists_, stat_node in Hex.
  split; [|split].
  - intros ->. unfold joinpath in Hex. simpl in Hex. rewrite app_nil_r, Hr, Hn in Hex. done.
  - intros ->. unfold joinpath in Hex. simpl in Hex. rewrite app_nil_r, Hr, Hn in Hex. done.
  - intros ->. unfold joinpath in Hex. simpl in Hex.
    rewrite resolve_below in Hex by done. simpl in Hex. rewrite Hn in Hex.
    destruct (parent_is_dir σ d Hd Hdir) as [st' Hp].
    change (step d "..") with (removelast d) in Hex. by rewrite Hp in Hex.
Qed.

Lemma stat_child (σ : fs) d s :
  Forall regular d → is_dir σ d = true → segment s = true →
  stat_node σ (joinpath d s) = σ !! (d ++ [s]).
Proof.
  intros Hd Hdir Hs. rewrite joinpath_segment by done.
  apply segment_regular in Hs.
  unfold stat_node. by rewrite resolve_child, node_at_child.
Qed.

#[local] Hint Resolve regular_UPLOAD_DIR regular_CONVERTED_DIR : core.

(** ** Writing and removing an entry of a directory *)

Lemma open_write_child (σ : fs) d s data now :
  Forall regular d → is_dir σ d = true → segment s = true →
  (∀ st, σ !! (d ++ [s]) ≠ Some (Dir st)) →
  open_write (joinpath d s) data now σ = (inr (), <[d ++ [s] := File data now]> σ).
Proof.
  intros Hd Hdir Hs Hnd. rewrite joinpath_segment by done.
  apply segment_regular in Hs.
  unfold open_write. rewrite resolve_child, node_at_child by done.
  destruct (σ !! (d ++ [s])) as [[|st]|] eqn:Hl; try done. by destruct (Hnd st).
Qed.

(** ** POST /upload *)

Lemma upload_fresh (σ : fs) name data now :
  is_dir σ UPLOAD_DIR = true →
  exists_ σ (joinpath UPLOAD_DIR (basename name)) = false →
  respond (upload_file name data now σ) =
  ({| status := 200;
      body := Uploaded (basename name) (str_path (UPLOAD_DIR ++ [basename name]))
                (String.length data) |},
   <[UPLOAD_DIR ++ [basename name] := File data now]> σ).
Proof.
  intros Hup Hex.
  pose proof (absent_is_segment σ UPLOAD_DIR _ regular_UPLOAD_DIR Hup
                (basename_slash_free name) Hex) as Hseg.
  assert (name ≠ "") as Hne by (by intros ->).
  unfold upload_file, try_except, bind, path_exists, raise, ret.
  rewrite eqb_str_false, Hex by done.
  rewrite open_write_child; try done.
  - by rewrite joinpath_segment.
  - intros st Hl. unfold exists_ in Hex.
    rewrite stat_child, Hl in Hex by done. done.
Qed.

Lemma upload_conflict (σ : fs) name data now :
  name ≠ "" →
  exists_ σ (joinpath UPLOAD_DIR (basename name)) = true →
  respond (upload_file name data now σ) =
  ({| status := 409;
      body := Detail (Msg ("File '" +:+ basename name +:+ "' already exists")) |}, σ).
Proof.
  intros Hne Hex. unfold upload_file, try_except, bind, path_exists, raise, ret.
  by rewrite eqb_str_false, Hex.
Qed.

(** C3: with both directories in place, uploading under a sanitized name
    that nothing in Uploads bears answers 200 and stores exactly the uploaded
    bytes under that name, touching no other path; uploading again under the
    same sanitized name answers 409 and leaves the filesystem, the first file
    included, as it was. *)
Theorem upload_then_conflict (σ : fs) (name name' data data' : string) (now now' : Z) :
  layout σ = true →
  exists_ σ (joinpath UPLOAD_DIR (basename name)) = false →
  basename name' = basename name →
  let r1 := respond (upload_file name data now σ) in
  let r2 := respond (upload_file name' data' now' r1.2) in
  status r1.1 = 200 ∧
  r1.2 !! (UPLOAD_DIR ++ [basename name]) = Some (File data now) ∧
  (∀ p, p ≠ UPLOAD_DIR ++ [basename name] → r1.2 !! p = σ !! p) ∧
  status r2.1 = 409 ∧
  r2.2 = r1.2.
Proof.
  intros [Hup _]%layout_dirs Hex Hsame r1 r2.
  pose proof (absent_is_segment σ UPLOAD_DIR _ regular_UPLOAD_DIR Hup
                (basename_slash_free name) Hex) as Hseg.
  assert (name' ≠ "") as Hne' by (intros ->; by rewrite <-Hsame in Hseg).
  subst r2 r1. rewrite upload_fresh by done. cbn [fst snd].
  set (σ1 := <[_ := _]> σ).
  assert (Hup1 : is_dir σ1 UPLOAD_DIR = true).
  { rewrite <-Hup. apply is_dir_frame; [done|].
    intros p Hp. apply lookup_insert_ne. intros <-.
    apply prefix_length in Hp. simpl in Hp. lia. }
  rewrite upload_conflict; [|done|].
  - repeat split; try done.
    + apply lookup_insert_eq.
    + intros p Hp. by apply lookup_insert_ne.
  - rewrite Hsame. unfold exists_. rewrite stat_child by done.
    unfold σ1. by rewrite lookup_insert_eq.
Qed.

(** ** Conversion by filename *)

Lemma is_file_exists (σ : fs) p : is_file σ p = true → exists_ σ p = true.
Proof. unfold is_file, exists_. by destruct (stat_node σ p) as [[]|]. Qed.

Lemma by_name_get_is_post md : convert_file_by_name_get md = convert_file_by_name md.
Proof. reflexivity. Qed.

Lemma by_name_absent md fn out u now (σ : fs) :
  fn ≠ "" → exists_ σ (joinpath UPLOAD_DIR (basename fn)) = false →
  respond (convert_file_by_name md fn out u now σ) =
  ({| status := 404;
      body := Detail (Msg ("File '" +:+ basename fn +:+ "' not found in uploads directory")) |},
   σ).
Proof. intros Hne Hex. run_by_name. rewrite eqb_str_false, Hex by done. by red_handler. Qed.

Lemma by_name_not_regular md fn out u now (σ : fs) :
  exists_ σ (joinpath UPLOAD_DIR (basename fn)) = true →
  is_file σ (joinpath UPLOAD_DIR (basename fn)) = false →
  let r := respond (convert_file_by_name md fn out u now σ) in
  status r.1 = 400 ∧ r.2 = σ.
Proof.
  intros Hex Hf. run_by_name. destruct (String.eqb_spec fn "") as [->|Hne]; [done|].
  rewrite Hex. red_handler. rewrite Hf. by red_handler.
Qed.

Lemma by_name_empty md fn out u now (σ : fs) :
  fn ≠ "" → is_file σ (joinpath UPLOAD_DIR (basename fn)) = true →
  empty_output (md σ (str_path (joinpath UPLOAD_DIR (basename fn)))) = true →
  let r := respond (convert_file_by_name md fn out u now σ) in
  status r.1 = 422 ∧ r.2 = σ.
Proof.
  intros Hne Hf Hempty. run_by_name.
  rewrite eqb_str_false, (is_file_exists _ _ Hf) by done. red_handler.
  rewrite Hf. red_handler.
  destruct (md σ _) as [msg|[r|]]; simpl in Hempty; try done.
  by rewrite Hempty.
Qed.

(** C5: for the same [file_name] and [output_filename], the same uuid draw,
    clock and converter, and the same filesystem, GET
    /convert-by-filename/{file_name} and POST /convert-by-filename give the
    same response (status and body) and leave the same filesystem. *)
Theorem by_name_entry_points_agree md (file_name : string) (output_filename : option string)
    (uuid4 : N) (now : Z) (σ : fs) :
  respond (convert_file_by_name_get md file_name output_filename uuid4 now σ) =
  respond (convert_file_by_name md file_name output_filename uuid4 now σ).
Proof. by rewrite by_name_get_is_post. Qed.

(** C4, amended: a conversion by filename (POST or GET) whose non-empty
    [file_name] does not name a regular file of Uploads after sanitization
    fails and leaves the filesystem unchanged; the status is 404 when nothing
    exists under the name and 400 when something that is not a regular file
    does. *)
Theorem by_name_missing_input md (file_name : string) (output_filename : option string)
    (uuid4 : N) (now : Z) (σ : fs) :
  file_name ≠ "" →
  is_file σ (joinpath UPLOAD_DIR (basename file_name)) = false →
  let present := exists_ σ (joinpath UPLOAD_DIR (basename file_name)) in
  let post := respond (convert_file_by_name md file_name output_filename uuid4 now σ) in
  let get := respond (convert_file_by_name_get md file_name output_filename uuid4 now σ) in
  status post.1 = (if present then 400 else 404) ∧ post.2 = σ ∧ get = post.
Proof.
  intros Hne Hf present post get. subst get post present.
  change (convert_file_by_name_get md) with (convert_file_by_name md).
  destruct (exists_ σ _) eqn:Hex.
  - destruct (by_name_not_regular md file_name output_filename uuid4 now σ Hex Hf) as [H1 H2].
    auto.
  - rewrite by_name_absent by done. auto.
Qed.

(** ** The identity token *)

Lemma hex_digit_not_slash d : hex_digit d ≠ "/"%char.
Proof.
  destruct d as [|p]; [done|].
  do 4 (try destruct p as [p|p|]); done.
Qed.

Lemma unique_id_digits u :
  unique_id u =
  String (hex_digit ((u / 16 ^ 31) mod 16)%N) (String (hex_digit ((u / 16 ^ 30) mod 16)%N)
  (String (hex_digit ((u / 16 ^ 29) mod 16)%N) (String (hex_digit ((u / 16 ^ 28) mod 16)%N)
  (String (hex_digit ((u / 16 ^ 27) mod 16)%N) (String (hex_digit ((u / 16 ^ 26) mod 16)%N)
  (String (hex_digit ((u / 16 ^ 25) mod 16)%N) (String (hex_digit ((u / 16 ^ 24) mod 16)%N)
  ""))))))).
Proof. reflexivity. Qed.

Lemma unique_id_length u : String.length (unique_id u) = 8.
Proof. by rewrite unique_id_digits. Qed.

Lemma unique_id_slash_free u : slash_free (unique_id u).
Proof.
  rewrite unique_id_digits. unfold slash_free.
  repeat (apply rfind_None_cons; split; [apply hex_digit_not_slash|]). done.
Qed.

Lemma app_str_assoc a b c : (a +:+ b) +:+ c = a +:+ b +:+ c.
Proof.
  induction a as [|x a IH]; [done|].
  change (String x ((a +:+ b) +:+ c) = String x (a +:+ b +:+ c)). by rewrite IH.
Qed.

Lemma split_slash_nonempty s : split_slash s ≠ [].
Proof.
  destruct s as [|a r]; simpl; [done|].
  destruct (Ascii.eqb a "/"%char); [done|]. by destruct (split_slash r).
Qed.

Lemma split_slash_app a b :
  slash_free a →
  split_slash (a +:+ b) =
  match split_slash b with
  | hd :: tl => (a +:+ hd) :: tl
  | [] => [a]
  end.
Proof.
  unfold slash_free. induction a as [|c a IH].
  - intros _. simpl. destruct (split_slash b) eqn:Hb; [|done].
    by destruct (split_slash_nonempty b).
  - intros [Hc Ha]%rfind_None_cons.
    change (String c a +:+ b) with (String c (a +:+ b)).
    simpl split_slash at 1. destruct (Ascii.eqb_spec c "/"%char); [done|].
    rewrite IH by done. by destruct (split_slash b).
Qed.

(** The temporary name of POST /convert starts with a plain entry name,
    whatever the uploaded file is called. *)
Lemma temp_name_parts u fn :
  ∃ first rest,
    parse_parts (unique_id u +:+ "_" +:+ fn) = first :: rest ∧
    segment first = true ∧
    is_absolute (unique_id u +:+ "_" +:+ fn) = false.
Proof.
  assert (Hpre : slash_free (unique_id u +:+ "_")).
  { apply slash_free_app. split; [apply unique_id_slash_free | done]. }
  destruct (split_slash fn) as [|hd tl] eqn:Hfn; [by destruct (split_slash_nonempty fn)|].
  exists ((unique_id u +:+ "_") +:+ hd), (List.filter keeps tl).
  assert (Hlen : String.length ((unique_id u +:+ "_") +:+ hd) = 9 + String.length hd).
  { by rewrite !length_app_str, unique_id_length. }
  assert (Hne : ∀ s, String.length s < 9 → (unique_id u +:+ "_") +:+ hd ≠ s).
  { intros s Hs Heq. rewrite <-Heq in Hs. lia. }
  assert (Habs : is_absolute (unique_id u +:+ "_" +:+ fn) = false).
  { rewrite unique_id_digits. simpl.
    destruct (Ascii.eqb_spec (hex_digit ((u / 16 ^ 31) mod 16)%N) "/"%char) as [He|]; [|done].
    by apply hex_digit_not_slash in He. }
  split; [|split; [|done]].
  - unfold parse_parts. rewrite relative_single_root by done.
    replace (unique_id u +:+ "_" +:+ fn) with ((unique_id u +:+ "_") +:+ fn)
      by apply app_str_assoc.
    rewrite split_slash_app, Hfn by done. simpl. unfold keeps at 1.
    rewrite !eqb_str_false; [done| |]; apply Hne; simpl; lia.
  - apply segment_spec. split; [|repeat split; apply Hne; simpl; lia].
    apply slash_free_app. split; [done|].
    apply (split_slash_pieces fn). rewrite Hfn. by left.
Qed.

(** ** What a write or a removal changes *)

Lemma open_write_inv (σ σ' : fs) p data now :
  open_write p data now σ = (inr (), σ') →
  ∃ q, resolve σ p = Some q ∧ (∀ st, node_at σ q ≠ Some (Dir st)) ∧
       σ' = <[q := File data now]> σ.
Proof.
  unfold open_write. destruct (resolve σ p) as [q|]; [|done].
  destruct (node_at σ q) as [[|st]|] eqn:Hn; try done;
    intros [= <-]; exists q; by rewrite Hn.
Qed.

Lemma open_write_fails (σ σ' : fs) p data now e :
  open_write p data now σ = (inl e, σ') →
  σ' = σ ∧ ∀ c d, e ≠ HTTPException c d.
Proof.
  unfold open_write. destruct (resolve σ p) as [q|].
  - destruct (node_at σ q) as [[|st]|]; try done; by intros [= <- <-].
  - by intros [= <- <-].
Qed.

(** The binary write is the creation of the file followed by a write that
    cannot fail. *)
Lemma open_write_steps (σ : fs) p data now :
  open_write p data now σ =
  (f ←' open_w p now; λ σ', (inr (), <[f := File data now]> σ')) σ.
Proof.
  unfold open_write, bind, open_w. destruct (resolve σ p) as [q|]; [|done].
  destruct (node_at σ q) as [[d0 m0|st]|]; try done; by rewrite insert_insert_eq.
Qed.

Lemma open_write_text_encodable (σ : fs) p text data now :
  utf8_encode text = Some data →
  open_write_text p text now σ = open_write p data now σ.
Proof.
  intros He. unfold open_write_text, bind, open_w, write_str, open_write.
  destruct (resolve σ p) as [q|]; [|done].
  destruct (node_at σ q) as [[|st]|]; try done; by rewrite He, insert_insert_eq.
Qed.

Lemma open_write_text_inv (σ σ' : fs) p text now :
  open_write_text p text now σ = (inr (), σ') →
  ∃ q data, resolve σ p = Some q ∧ (∀ st, node_at σ q ≠ Some (Dir st)) ∧
            utf8_encode text = Some data ∧ σ' = <[q := File data now]> σ.
Proof.
  unfold open_write_text, bind, open_w, write_str.
  destruct (resolve σ p) as [q|]; [|done].
  destruct (node_at σ q) as [[d0 m0|st]|] eqn:Hn; try done;
    (destruct (utf8_encode text) as [data|]; [|done]);
    intros [= <-]; exists q, data; by rewrite Hn, insert_insert_eq.
Qed.

(** A text write that raises has either changed nothing or left the file it
    opened empty, the text being one that UTF-8 cannot encode. *)
Lemma open_write_text_fails (σ σ' : fs) p text now e :
  open_write_text p text now σ = (inl e, σ') →
  (∀ c d, e ≠ HTTPException c d) ∧
  (σ' = σ ∨
   ∃ q, resolve σ p = Some q ∧ (∀ st, node_at σ q ≠ Some (Dir st)) ∧
        utf8_encode text = None ∧ σ' = <[q := File "" now]> σ).
Proof.
  unfold open_write_text, bind, open_w, write_str.
  destruct (resolve σ p) as [q|]; [|intros [= <- <-]; split; [done | by left]].
  destruct (node_at σ q) as [[d0 m0|st]|] eqn:Hn;
    try (intros [= <- <-]; split; [done | by left]);
    (destruct (utf8_encode text) as [data|]; [done|]);
    intros [= <- <-]; (split; [done|]); right; exists q; by rewrite Hn.
Qed.

(** Whatever its outcome, a text write changes at most the file it opened. *)
Lemma open_write_text_touch (σ σ' : fs) p text now (x : exception + unit) :
  open_write_text p text now σ = (x, σ') →
  σ' = σ ∨
  ∃ q data, resolve σ p = Some q ∧ (∀ st, node_at σ q ≠ Some (Dir st)) ∧
            σ' = <[q := File data now]> σ.
Proof.
  destruct x as [e|[]].
  - intros [_ [->|(q & Hq & Hnd & _ & ->)]]%open_write_text_fails; [by left|].
    right. by exists q, "".
  - intros (q & data & Hq & Hnd & _ & ->)%open_write_text_inv. right. by exists q, data.
Qed.

Lemma is_dir_prefix (σ : fs) p k :
  Forall regular (p ++ k) → is_dir σ (p ++ k) = true → is_dir σ p = true.
Proof.
  induction k as [|x k IH] using rev_ind; [by rewrite app_nil_r|].
  rewrite app_assoc. intros Hreg Hdir. apply IH; [by apply Forall_app in Hreg as [? _]|].
  apply Forall_app in Hreg as [Hreg _].
  revert Hdir. unfold is_dir, stat_node, resolve. rewrite walk_app.
  destruct (walk σ [] (p ++ k)) as [q|] eqn:Hw; [|done].
  apply walk_regular in Hw as ->; [|done]. simpl.
  by destruct (node_at σ (p ++ k)) as [[|st]|].
Qed.

(** Changing a node that is not a directory leaves the directories along
    any path as they are. *)
Lemma is_dir_change (σ σ' : fs) d q :
  Forall regular d → is_dir σ d = true →
  (∀ st, node_at σ q ≠ Some (Dir st)) →
  (∀ p, p ≠ q → σ' !! p = σ !! p) →
  is_dir σ' d = true.
Proof.
  intros Hd Hdir Hq Hf. rewrite <-Hdir. apply is_dir_frame; [done|].
  intros p [k ->]. apply Hf. intros ->.
  destruct (is_dir_resolve σ q) as [_ [st Hn]].
  - by apply Forall_app in Hd as [? _].
  - by apply (is_dir_prefix σ q k).
  - by apply (Hq st).
Qed.

Lemma temp_path_cases (σ : fs) u fn :
  is_dir σ UPLOAD_DIR = true → no_subdirs σ UPLOAD_DIR = true →
  let temp_file_path := joinpath UPLOAD_DIR (unique_id u +:+ "_" +:+ fn) in
  (∃ s, segment s = true ∧ temp_file_path = UPLOAD_DIR ++ [s]) ∨
  resolve σ temp_file_path = None.
Proof.
  intros Hup Hflat. destruct (temp_name_parts u fn) as (first & rest & Hp & Hseg & Habs).
  unfold joinpath. rewrite Habs, Hp. destruct rest as [|x rest]; [left; eauto|right].
  apply segment_regular in Hseg.
  destruct (is_dir_resolve σ UPLOAD_DIR) as [_ [st Hn]]; [done..|].
  rewrite resolve_below by done.
  change (walk σ UPLOAD_DIR (first :: x :: rest)) with
    (match node_at σ UPLOAD_DIR with
     | Some (Dir _) =>
         match node_at σ (step UPLOAD_DIR first) with
         | Some (Dir _) => walk σ (step (step UPLOAD_DIR first) x) rest
         | _ => None
         end
     | _ => None
     end).
  rewrite Hn, step_regular, node_at_child by done.
  destruct (σ !! (UPLOAD_DIR ++ [first])) as [[|st']|] eqn:Hl; try done.
  by apply no_subdirs_spec in Hl.
Qed.

Lemma stat_entry (σ : fs) d s :
  Forall regular d → is_dir σ d = true → regular s →
  stat_node σ (d ++ [s]) = σ !! (d ++ [s]).
Proof. intros. unfold stat_node. by rewrite resolve_child, node_at_child. Qed.

Lemma unlink_entry (σ : fs) d s data mtime :
  Forall regular d → is_dir σ d = true → regular s →
  σ !! (d ++ [s]) = Some (File data mtime) →
  unlink (d ++ [s]) σ = (inr (), delete (d ++ [s]) σ).
Proof. intros ??? Hl. unfold unlink. by rewrite resolve_child, node_at_child, Hl. Qed.

Lemma open_write_entry (σ : fs) d s data now :
  Forall regular d → is_dir σ d = true → regular s →
  (∀ st, σ !! (d ++ [s]) ≠ Some (Dir st)) →
  open_write (d ++ [s]) data now σ = (inr (), <[d ++ [s] := File data now]> σ).
Proof.
  intros Hd Hdir Hs Hnd. unfold open_write. rewrite resolve_child, node_at_child by done.
  destruct (σ !! (d ++ [s])) as [[|st]|] eqn:Hl; try done. by destruct (Hnd st).
Qed.

(** ** POST /convert *)

(** Every run of POST /convert over a flat Uploads directory. *)
Lemma convert_file_cases md fn data out u now (σ : fs) :
  is_dir σ UPLOAD_DIR = true → no_subdirs σ UPLOAD_DIR = true →
  let temp := joinpath UPLOAD_DIR (unique_id u +:+ "_" +:+ fn) in
  let r := respond (convert_file md fn data out u now σ) in
  let md_filename :=
    if truthy out then fmt out +:+ ".md" else stem fn +:+ "_" +:+ unique_id u +:+ ".md" in
  (fn = "" ∧ status r.1 = 400 ∧ r.2 = σ) ∨
  (fn ≠ "" ∧ resolve σ temp = None ∧ status r.1 = 500 ∧ r.2 = σ) ∨
  (∃ s, fn ≠ "" ∧ segment s = true ∧ temp = UPLOAD_DIR ++ [s] ∧
     let σ1 := <[temp := File data now]> σ in
     open_write temp data now σ = (inr (), σ1) ∧
     match md σ1 (str_path temp) with
     | Returns (Some res) =>
         if is_empty (text_content res) then status r.1 = 422 ∧ r.2 = σ1
         else
           match open_write_text (joinpath CONVERTED_DIR md_filename) (text_content res) now σ1
           with
           | (inr _, σ2) =>
               r = ({| status := 200;
                       body := Converted fn md_filename None
                                 (str_path (joinpath CONVERTED_DIR md_filename))
                                 (length (text_content res)) (suffix fn)
                                 (unique_id u) |},
                    delete temp σ2)
           | (inl _, σ2) => status r.1 = 500 ∧ r.2 = delete temp σ2
           end
     | _ => status r.1 = 422 ∧ r.2 = σ1
     end).
Proof.
  intros Hup Hflat temp r md_filename.
  destruct (String.eqb_spec fn "") as [->|Hne]; [left; by subst r|right].
  destruct (temp_path_cases σ u fn Hup Hflat) as [(s & Hseg & Htemp)|Hnone].
  - right. exists s. fold temp in Htemp. split; [done|]. split; [done|]. split; [done|].
    intros σ1.
    assert (Hw : open_write temp data now σ = (inr (), σ1)).
    { subst σ1. rewrite Htemp.
      apply open_write_entry; try done; [by apply segment_regular|].
      intros st. by apply no_subdirs_spec. }
    split; [done|].
    assert (Hup1 : is_dir σ1 UPLOAD_DIR = true).
    { apply (is_dir_change σ σ1 UPLOAD_DIR temp); try done.
      - intros st. rewrite Htemp, node_at_child. by apply no_subdirs_spec.
      - intros p Hp. by apply lookup_insert_ne. }
    assert (Ht1 : σ1 !! temp = Some (File data now)) by apply lookup_insert_eq.
    pose proof (segment_regular s Hseg) as Hreg.
    subst r. run_convert_file. rewrite eqb_str_false by done. fold temp. rewrite Hw.
    red_handler.
    destruct (md σ1 (str_path temp)) as [msg|[res|]]; red_handler; try done.
    destruct (is_empty (text_content res)); red_handler; [done|].
    fold md_filename.
    destruct (open_write_text (joinpath CONVERTED_DIR md_filename) _ now σ1) as [x σ2] eqn:Hw2.
    assert (Hσ2 : is_dir σ2 UPLOAD_DIR = true ∧ ∃ d t, σ2 !! temp = Some (File d t)).
    { pose proof Hw2 as [->|(q & d & Hq & Hnd & ->)]%open_write_text_touch; [eauto|].
      split.
      - apply (is_dir_change σ1 _ UPLOAD_DIR q); try done.
        intros p Hp. by apply lookup_insert_ne.
      - destruct (decide (q = temp)) as [->|Hqt].
        + rewrite lookup_insert_eq. eauto.
        + rewrite lookup_insert_ne by done. eauto. }
    destruct Hσ2 as (Hup2 & d & t & Ht2).
    assert (Hex : exists_ σ2 temp = true).
    { unfold exists_. by rewrite Htemp, stat_entry, <-Htemp, Ht2. }
    assert (Hun : unlink temp σ2 = (inr (), delete temp σ2)).
    { rewrite Htemp. eapply unlink_entry; try done. by rewrite <-Htemp. }
    destruct x as [e|[]]; red_handler.
    + apply open_write_text_fails in Hw2 as [Hnh _].
      destruct e as [c d'|?|?|?|?|?|?]; [by destruct (Hnh c d')|..];
        rewrite Hex; red_handler; rewrite Hun; by red_handler.
    + rewrite Hex. red_handler. rewrite Hun. by red_handler.
  - left. fold temp in Hnone. split; [done|]. split; [done|].
    subst r. run_convert_file. rewrite eqb_str_false by done. fold temp.
    unfold open_write, exists_, stat_node. rewrite Hnone. red_handler.
    rewrite Hnone. by red_handler.
Qed.

(** ** The name of the converted file *)

Lemma path_name_slash_free s : slash_free (path_name s).
Proof.
  unfold path_name. destruct (parse_parts s) as [|x l] eqn:Hp using rev_ind; [done|].
  rewrite last_last. apply (parse_parts_pieces s). rewrite Hp.
  apply elem_of_app. right. by left.
Qed.

Lemma stem_slash_free s : slash_free (stem s).
Proof.
  unfold stem. destruct (splits_at (path_name s)).
  - apply slash_free_take, path_name_slash_free.
  - apply path_name_slash_free.
Qed.

(** A name of more than two characters without separator is a plain entry
    name. *)
Lemma long_name_segment s : slash_free s → 2 < String.length s → segment s = true.
Proof.
  intros Hs Hlen. apply segment_spec. split; [done|].
  repeat split; intros ->; simpl in Hlen; lia.
Qed.

Lemma override_name_segment o : o ≠ "" → slash_free o → segment (o +:+ ".md") = true.
Proof.
  intros Hne Hs. apply long_name_segment.
  - apply slash_free_app. by split.
  - rewrite length_app_str. destruct o; [done|]. simpl. lia.
Qed.

Lemma default_name_segment x u : segment (stem x +:+ "_" +:+ unique_id u +:+ ".md") = true.
Proof.
  apply long_name_segment.
  - repeat (apply slash_free_app; split); try done;
      [apply stem_slash_free | apply unique_id_slash_free].
  - rewrite !length_app_str, unique_id_length. simpl. lia.
Qed.

Lemma default_name_not_bare x u : stem x +:+ "_" +:+ unique_id u +:+ ".md" ≠ ".md".
Proof.
  intros Heq%(f_equal String.length).
  rewrite !length_app_str, unique_id_length in Heq. simpl in Heq. lia.
Qed.

Lemma default_name_token_inj x u u' :
  stem x +:+ "_" +:+ unique_id u +:+ ".md" = stem x +:+ "_" +:+ unique_id u' +:+ ".md" →
  unique_id u = unique_id u'.
Proof.
  intros Heq%app_str_inj_l%app_str_inj_l.
  rewrite !unique_id_digits in *. cbv [String.append] in Heq. congruence.
Qed.

(** ** When two tokens coincide *)

Lemma hex_digit_inj d d' :
  (d < 16)%N → (d' < 16)%N → hex_digit d = hex_digit d' → d = d'.
Proof.
  intros Hd Hd'.
  destruct d as [|p]; [|do 4 (try destruct p as [p|p|])]; try lia;
    (destruct d' as [|p']; [|do 4 (try destruct p' as [p'|p'|])]; try lia);
    simpl; intros [=]; reflexivity.
Qed.

Lemma hex_step q : (q = 16 * (q / 16) + q mod 16 ∧ q mod 16 < 16)%N.
Proof. split; [apply N.div_mod' | apply N.mod_lt; lia]. Qed.

Ltac next_digit x q d H :=
  pose proof (hex_step x) as H;
  let E := fresh in
  remember (x / 16)%N as q eqn:E in *; clear E;
  remember (x mod 16)%N as d eqn:E in *; clear E.

(** The digits of the token are those of [x = u / 16^24]. *)
Lemma unique_id_leading u :
  let x := (u / 16 ^ 24)%N in
  unique_id u =
  String (hex_digit ((x / 16 / 16 / 16 / 16 / 16 / 16 / 16) mod 16)%N)
  (String (hex_digit ((x / 16 / 16 / 16 / 16 / 16 / 16) mod 16)%N)
  (String (hex_digit ((x / 16 / 16 / 16 / 16 / 16) mod 16)%N)
  (String (hex_digit ((x / 16 / 16 / 16 / 16) mod 16)%N)
  (String (hex_digit ((x / 16 / 16 / 16) mod 16)%N)
  (String (hex_digit ((x / 16 / 16) mod 16)%N)
  (String (hex_digit ((x / 16) mod 16)%N)
  (String (hex_digit (x mod 16)%N) ""))))))).
Proof.
  intros x. subst x. rewrite unique_id_digits, !N.Div0.div_div. reflexivity.
Qed.

(** Two draws give the same token exactly when they agree on their leading
    32 bits (of 128). *)
Lemma unique_id_eq_iff u u' :
  unique_id u = unique_id u' ↔
  ((u / 2 ^ 96) mod 2 ^ 32 = (u' / 2 ^ 96) mod 2 ^ 32)%N.
Proof.
  rewrite !unique_id_leading. cbv zeta.
  change (2 ^ 96)%N with (16 ^ 24)%N.
  change (2 ^ 32)%N with (16 * 16 * 16 * 16 * 16 * 16 * 16 * 16)%N.
  generalize (u / 16 ^ 24)%N (u' / 16 ^ 24)%N. clear u u'. intros x x'.
  pose proof (N.div_mod' x (16 * 16 * 16 * 16 * 16 * 16 * 16 * 16)) as M.
  pose proof (N.div_mod' x' (16 * 16 * 16 * 16 * 16 * 16 * 16 * 16)) as M'.
  rewrite <-!N.Div0.div_div in M, M'.
  next_digit x q1 d0 H0. next_digit q1 q2 d1 H1. next_digit q2 q3 d2 H2.
  next_digit q3 q4 d3 H3. next_digit q4 q5 d4 H4. next_digit q5 q6 d5 H5.
  next_digit q6 q7 d6 H6. next_digit q7 q8 d7 H7.
  next_digit x' p1 e0 G0. next_digit p1 p2 e1 G1. next_digit p2 p3 e2 G2.
  next_digit p3 p4 e3 G3. next_digit p4 p5 e4 G4. next_digit p5 p6 e5 G5.
  next_digit p6 p7 e6 G6. next_digit p7 p8 e7 G7.
  remember (x mod _)%N as m eqn:E in *. clear E.
  remember (x' mod _)%N as m' eqn:E in *. clear E.
  destruct H0 as [H0 B0], H1 as [H1 B1], H2 as [H2 B2], H3 as [H3 B3],
    H4 as [H4 B4], H5 as [H5 B5], H6 as [H6 B6], H7 as [H7 B7].
  destruct G0 as [G0 C0], G1 as [G1 C1], G2 as [G2 C2], G3 as [G3 C3],
    G4 as [G4 C4], G5 as [G5 C5], G6 as [G6 C6], G7 as [G7 C7].
  assert (Hm : (m = d0 + 16 * (d1 + 16 * (d2 + 16 * (d3 + 16 * (d4 + 16 *
                   (d5 + 16 * (d6 + 16 * d7)))))))%N) by lia.
  assert (Hm' : (m' = e0 + 16 * (e1 + 16 * (e2 + 16 * (e3 + 16 * (e4 + 16 *
                   (e5 + 16 * (e6 + 16 * e7)))))))%N) by lia.
  clear - Hm Hm' B0 B1 B2 B3 B4 B5 B6 B7 C0 C1 C2 C3 C4 C5 C6 C7.
  split.
  - intros [= E7 E6 E5 E4 E3 E2 E1 E0].
    apply hex_digit_inj in E0, E1, E2, E3, E4, E5, E6, E7; try done. by subst.
  - intros E. rewrite Hm, Hm' in E. clear Hm Hm'.
    assert (d0 = e0) as -> by lia. assert (d1 = e1) as -> by lia.
    assert (d2 = e2) as -> by lia. assert (d3 = e3) as -> by lia.
    assert (d4 = e4) as -> by lia. assert (d5 = e5) as -> by lia.
    assert (d6 = e6) as -> by lia. assert (d7 = e7) as -> by lia.
    done.
Qed.

(** ** Writes into Converted *)

(** Where a write into Converted under a plain name lands. *)
Lemma write_converted_inv (σ σ' : fs) name text now :
  segment name = true →
  open_write_text (joinpath CONVERTED_DIR name) text now σ = (inr (), σ') →
  (∀ st, σ !! (CONVERTED_DIR ++ [name]) ≠ Some (Dir st)) ∧
  ∃ data, utf8_encode text = Some data ∧
          σ' = <[CONVERTED_DIR ++ [name] := File data now]> σ.
Proof.
  intros Hseg (q & data & Hq & Hnd & He & ->)%open_write_text_inv.
  rewrite joinpath_segment in Hq by done.
  apply resolve_child_inv in Hq as ->; [|done|by apply segment_regular].
  split; [|by exists data]. intros st. rewrite <-node_at_child. apply Hnd.
Qed.

(** A write into Converted under a plain name, whatever its outcome, leaves
    every other path as it was. *)
Lemma write_converted_frame (σ σ' : fs) name text now (x : exception + unit) p :
  segment name = true →
  open_write_text (joinpath CONVERTED_DIR name) text now σ = (x, σ') →
  p ≠ CONVERTED_DIR ++ [name] → σ' !! p = σ !! p.
Proof.
  intros Hseg [->|(q & d & Hq & _ & ->)]%open_write_text_touch Hp; [done|].
  rewrite joinpath_segment in Hq by done.
  apply resolve_child_inv in Hq as ->; [|done|by apply segment_regular].
  by apply lookup_insert_ne.
Qed.

(** The write that a conversion ends with succeeds when the text can be
    encoded and the name is a plain one that no directory of Converted
    bears. *)
Lemma write_converted_ok (σ : fs) name text data now :
  is_dir σ CONVERTED_DIR = true → segment name = true →
  (∀ st, σ !! (CONVERTED_DIR ++ [name]) ≠ Some (Dir st)) →
  utf8_encode text = Some data →
  open_write_text (joinpath CONVERTED_DIR name) text now σ =
  (inr (), <[CONVERTED_DIR ++ [name] := File data now]> σ).
Proof.
  intros Hdir Hseg Hnd He.
  rewrite (open_write_text_encodable _ _ _ data) by done. by apply open_write_child.
Qed.

(** Every run of POST /convert-by-filename. *)
Lemma by_name_cases md fn out u now (σ : fs) :
  let input := joinpath UPLOAD_DIR (basename fn) in
  let r := respond (convert_file_by_name md fn out u now σ) in
  let md_filename :=
    if truthy out then fmt out +:+ ".md"
    else stem (basename fn) +:+ "_" +:+ unique_id u +:+ ".md" in
  (status r.1 = 400 ∧ r.2 = σ ∧ (fn = "" ∨ is_file σ input = false)) ∨
  (status r.1 = 404 ∧ r.2 = σ ∧ exists_ σ input = false) ∨
  (fn ≠ "" ∧ is_file σ input = true ∧
   match md σ (str_path input) with
   | Returns (Some res) =>
       if is_empty (text_content res) then status r.1 = 422 ∧ r.2 = σ
       else
         match open_write_text (joinpath CONVERTED_DIR md_filename) (text_content res) now σ
         with
         | (inr _, σ2) =>
             r = ({| status := 200;
                     body := Converted (basename fn) md_filename (Some (str_path input))
                               (str_path (joinpath CONVERTED_DIR md_filename))
                               (length (text_content res)) (suffix (basename fn))
                               (unique_id u) |},
                  σ2)
         | (inl _, σ2) => status r.1 = 500 ∧ r.2 = σ2
         end
   | _ => status r.1 = 422 ∧ r.2 = σ
   end).
Proof.
  intros input r md_filename.
  destruct (String.eqb_spec fn "") as [->|Hne];
    [left; subst r; split; [done|]; split; [done | by left]|].
  destruct (exists_ σ input) eqn:Hex;
    [|right; left; subst r; by rewrite by_name_absent].
  destruct (is_file σ input) eqn:Hf.
  2:{ left. destruct (by_name_not_regular md fn out u now σ Hex Hf) as [H1 H2].
      split; [done|]. split; [done | by right]. }
  right; right. split; [done|]. split; [done|].
  subst r. run_by_name. rewrite eqb_str_false by done. fold input.
  rewrite Hex. red_handler. rewrite Hf. red_handler.
  destruct (md σ (str_path input)) as [msg|[res|]]; red_handler; try done.
  destruct (is_empty (text_content res)); red_handler; [done|].
  fold md_filename.
  destruct (open_write_text (joinpath CONVERTED_DIR md_filename) _ now σ) as [[e|[]] σ2] eqn:Hw;
    red_handler; [|done].
  apply open_write_text_fails in Hw as [Hnh _].
  destruct e as [c d|?|?|?|?|?|?]; [by destruct (Hnh c d)|..]; by red_handler.
Qed.

Lemma uploads_not_converted s name : UPLOAD_DIR ++ [s] ≠ CONVERTED_DIR ++ [name].
Proof. done. Qed.

Lemma by_name_success md fn out u now (σ : fs) :
  let r := respond (convert_file_by_name md fn out u now σ) in
  let name :=
    if truthy out then fmt out +:+ ".md"
    else stem (basename fn) +:+ "_" +:+ unique_id u +:+ ".md" in
  segment name = true → status r.1 = 200 →
  ∃ text, converted_as r name text now.
Proof.
  intros r name Hseg Hok.
  pose proof (by_name_cases md fn out u now σ) as H. cbv zeta in H.
  fold r name in H. destruct H as [[H _]|[[H _]|(_ & _ & H)]];
    try (rewrite H in Hok; done).
  destruct (md σ _) as [msg|[res|]]; try (destruct H as [H _]; rewrite H in Hok; done).
  destruct (is_empty (text_content res));
    try (destruct H as [H _]; rewrite H in Hok; done).
  destruct (open_write_text _ _ now σ) as [[e|[]] σ2] eqn:Hw;
    [destruct H as [H _]; rewrite H in Hok; done|].
  apply write_converted_inv in Hw as [_ (bytes & He & ->)]; [|done].
  exists (text_content res). rewrite H. split; [simpl; eauto 10|].
  exists bytes. split; [done|]. apply lookup_insert_eq.
Qed.

Lemma convert_file_success md fn data out u now (σ : fs) :
  let r := respond (convert_file md fn data out u now σ) in
  let name :=
    if truthy out then fmt out +:+ ".md"
    else stem fn +:+ "_" +:+ unique_id u +:+ ".md" in
  layout σ = true → no_subdirs σ UPLOAD_DIR = true →
  segment name = true → status r.1 = 200 →
  ∃ text, converted_as r name text now.
Proof.
  intros r name [Hup _]%layout_dirs Hflat Hseg Hok.
  pose proof (convert_file_cases md fn data out u now σ Hup Hflat) as H.
  cbv zeta in H. fold r name in H.
  destruct H as [(_ & H & _)|[(_ & _ & H & _)|(s & _ & Hs & Htemp & _ & H)]];
    try (rewrite H in Hok; done).
  destruct (md _ _) as [msg|[res|]]; try (destruct H as [H _]; rewrite H in Hok; done).
  destruct (is_empty (text_content res));
    try (destruct H as [H _]; rewrite H in Hok; done).
  destruct (open_write_text _ (text_content res) now _) as [[e|[]] σ2] eqn:Hw;
    [destruct H as [H _]; rewrite H in Hok; done|].
  apply write_converted_inv in Hw as [_ (bytes & He & ->)]; [|done].
  exists (text_content res). rewrite H. split; [simpl; eauto 10|].
  exists bytes. split; [done|].
  cbn [snd]. rewrite Htemp, lookup_delete_ne by apply uploads_not_converted.
  apply lookup_insert_eq.
Qed.

(** ** When a conversion succeeds *)

Lemma is_empty_false text : text ≠ [] → is_empty text = false.
Proof. by destruct text. Qed.

Lemma by_name_succeeds md fn out u now (σ : fs) res data :
  let input := joinpath UPLOAD_DIR (basename fn) in
  let name :=
    if truthy out then fmt out +:+ ".md"
    else stem (basename fn) +:+ "_" +:+ unique_id u +:+ ".md" in
  fn ≠ "" → is_file σ input = true →
  md σ (str_path input) = Returns (Some res) → text_content res ≠ [] →
  utf8_encode (text_content res) = Some data →
  is_dir σ CONVERTED_DIR = true → segment name = true →
  (∀ st, σ !! (CONVERTED_DIR ++ [name]) ≠ Some (Dir st)) →
  respond (convert_file_by_name md fn out u now σ) =
  ({| status := 200;
      body := Converted (basename fn) name (Some (str_path input))
                (str_path (CONVERTED_DIR ++ [name])) (length (text_content res))
                (suffix (basename fn)) (unique_id u) |},
   <[CONVERTED_DIR ++ [name] := File data now]> σ).
Proof.
  intros input name Hne Hf Hmd Hnon He Hdir Hseg Hnd.
  run_by_name. rewrite eqb_str_false by done. fold input.
  rewrite (is_file_exists _ _ Hf). red_handler. rewrite Hf. red_handler.
  rewrite Hmd. red_handler. rewrite is_empty_false by done. red_handler.
  fold name. rewrite (write_converted_ok σ name _ data) by done. red_handler.
  by rewrite joinpath_segment.
Qed.

Lemma temp_name_segment u fn : slash_free fn → segment (unique_id u +:+ "_" +:+ fn) = true.
Proof.
  intros Hfn. apply long_name_segment.
  - repeat (apply slash_free_app; split); try done. apply unique_id_slash_free.
  - rewrite !length_app_str, unique_id_length. simpl. lia.
Qed.

Lemma convert_file_succeeds md fn data out u now (σ : fs) res bytes :
  let temp := UPLOAD_DIR ++ [unique_id u +:+ "_" +:+ fn] in
  let σ1 := <[temp := File data now]> σ in
  let name :=
    if truthy out then fmt out +:+ ".md"
    else stem fn +:+ "_" +:+ unique_id u +:+ ".md" in
  fn ≠ "" → slash_free fn → layout σ = true → no_subdirs σ UPLOAD_DIR = true →
  md σ1 (str_path temp) = Returns (Some res) → text_content res ≠ [] →
  utf8_encode (text_content res) = Some bytes →
  segment name = true → (∀ st, σ !! (CONVERTED_DIR ++ [name]) ≠ Some (Dir st)) →
  respond (convert_file md fn data out u now σ) =
  ({| status := 200;
      body := Converted fn name None (str_path (CONVERTED_DIR ++ [name]))
                (length (text_content res)) (suffix fn) (unique_id u) |},
   delete temp (<[CONVERTED_DIR ++ [name] := File bytes now]> σ1)).
Proof.
  intros temp σ1 name Hne Hfn Hlay Hflat Hmd Hnon He Hseg Hnd.
  pose proof Hlay as [Hup Hconv]%layout_dirs.
  pose proof (temp_name_segment u fn Hfn) as Htseg.
  pose proof (convert_file_cases md fn data out u now σ Hup Hflat) as H.
  cbv zeta in H. fold name in H. rewrite (joinpath_segment UPLOAD_DIR) in H by done.
  fold temp in H. fold σ1 in H.
  destruct H as [(? & _)|[(_ & Hnone & _)|(s & _ & Hs & Htemp & _ & H)]]; [done| |].
  { unfold temp in Hnone. rewrite resolve_child in Hnone; try done. }
  rewrite Hmd, is_empty_false in H by done.
  rewrite (write_converted_ok σ1 name _ bytes) in H; try done.
  - by rewrite joinpath_segment in H.
  - rewrite <-Hconv. apply is_dir_frame; [done|]. intros p Hp.
    apply lookup_insert_ne. intros <-. apply prefix_length in Hp.
    unfold temp in Hp. rewrite length_app in Hp. simpl in Hp. lia.
  - intros st. unfold σ1. rewrite lookup_insert_ne by apply uploads_not_converted. apply Hnd.
Qed.

Lemma by_name_ready_ok md fn out u now (σ : fs) :
  let name :=
    if truthy out then fmt out +:+ ".md"
    else stem (basename fn) +:+ "_" +:+ unique_id u +:+ ".md" in
  segment name = true → by_name_ready md σ fn name →
  status (respond (convert_file_by_name md fn out u now σ)).1 = 200.
Proof.
  intros name Hseg (Hne & Hf & (res & data & Hmd & Hnon & He) & Hdir & Hnd).
  by rewrite (by_name_succeeds md fn out u now σ res data).
Qed.

Lemma direct_ready_ok md fn data out u now (σ : fs) :
  let name :=
    if truthy out then fmt out +:+ ".md"
    else stem fn +:+ "_" +:+ unique_id u +:+ ".md" in
  segment name = true → direct_ready md σ fn data u now name →
  status (respond (convert_file md fn data out u now σ)).1 = 200.
Proof.
  intros name Hseg (Hne & Hfn & Hlay & Hflat & (res & bytes & Hmd & Hnon & He) & Hnd).
  by rewrite (convert_file_succeeds md fn data out u now σ res bytes).
Qed.

(** C6, amended: on every conversion endpoint a request with a non-empty
    override [o] free of separators (such as ["report"]) succeeds whenever
    its input can be converted and written, and every request answered 200
    reports and writes the entry [o.md] of Converted, whatever the input file
    is called; without override the entry is [{stem}_{token}.md], where the
    token is the first 8 characters of the UUID drawn for the request. Two
    draws give the same name exactly when they agree on their leading 32
    bits. For POST /convert the directories are assumed in place and Uploads
    flat. *)
Theorem converted_filename_policy md (fn data : string) (u : N) (now : Z) (σ : fs) :
  let post out := respond (convert_file_by_name md fn out u now σ) in
  let get out := respond (convert_file_by_name_get md fn out u now σ) in
  let direct out := respond (convert_file md fn data out u now σ) in
  let token := unique_id u in
  let by_name := stem (basename fn) +:+ "_" +:+ token +:+ ".md" in
  let by_upload := stem fn +:+ "_" +:+ token +:+ ".md" in
  (∀ o, o ≠ "" → slash_free o →
     (by_name_ready md σ fn (o +:+ ".md") →
      status (post (Some o)).1 = 200 ∧ status (get (Some o)).1 = 200) ∧
     (direct_ready md σ fn data u now (o +:+ ".md") → status (direct (Some o)).1 = 200) ∧
     (status (post (Some o)).1 = 200 →
      ∃ text, converted_as (post (Some o)) (o +:+ ".md") text now) ∧
     (status (get (Some o)).1 = 200 →
      ∃ text, converted_as (get (Some o)) (o +:+ ".md") text now) ∧
     (layout σ = true → no_subdirs σ UPLOAD_DIR = true →
      status (direct (Some o)).1 = 200 →
      ∃ text, converted_as (direct (Some o)) (o +:+ ".md") text now)) ∧
  (by_name_ready md σ fn by_name →
   status (post None).1 = 200 ∧ status (get None).1 = 200) ∧
  (direct_ready md σ fn data u now by_upload → status (direct None).1 = 200) ∧
  (status (post None).1 = 200 → ∃ text, converted_as (post None) by_name text now) ∧
  (status (get None).1 = 200 → ∃ text, converted_as (get None) by_name text now) ∧
  (layout σ = true → no_subdirs σ UPLOAD_DIR = true →
   status (direct None).1 = 200 → ∃ text, converted_as (direct None) by_upload text now) ∧
  String.length token = 8 ∧
  (∀ u' x, stem x +:+ "_" +:+ unique_id u' +:+ ".md" = stem x +:+ "_" +:+ token +:+ ".md" ↔
           ((u' / 2 ^ 96) mod 2 ^ 32 = (u / 2 ^ 96) mod 2 ^ 32)%N).
Proof.
  intros post get direct token by_name by_upload.
  assert (Ht : ∀ o, o ≠ "" → truthy (Some o) = true).
  { intros o Ho. simpl. by rewrite eqb_str_false. }
  split; [|split; [|split; [|split; [|split; [|split; [|split]]]]]].
  - intros o Ho Hs. pose proof (override_name_segment o Ho Hs) as Hseg.
    split; [|split; [|split; [|split]]].
    + intros Hready. change (get (Some o)) with (post (Some o)).
      pose proof (by_name_ready_ok md fn (Some o) u now σ) as H.
      cbv zeta in H. rewrite Ht in H by done. split; by apply H.
    + intros Hready. pose proof (direct_ready_ok md fn data (Some o) u now σ) as H.
      cbv zeta in H. rewrite Ht in H by done. by apply H.
    + intros Hok. pose proof (by_name_success md fn (Some o) u now σ) as H.
      cbv zeta in H. rewrite Ht in H by done. by apply H.
    + intros Hok. pose proof (by_name_success md fn (Some o) u now σ) as H.
      cbv zeta in H. rewrite Ht in H by done. by apply H.
    + intros Hl Hflat Hok.
      pose proof (convert_file_success md fn data (Some o) u now σ) as H.
      cbv zeta in H. rewrite Ht in H by done. by apply H.
  - intros Hready. change (get None) with (post None).
    split; apply (by_name_ready_ok md fn None u now σ); try done; apply default_name_segment.
  - intros Hready. apply (direct_ready_ok md fn data None u now σ); [|done].
    apply default_name_segment.
  - intros Hok. apply (by_name_success md fn None u now σ); [|done].
    apply default_name_segment.
  - intros Hok. apply (by_name_success md fn None u now σ); [|done].
    apply default_name_segment.
  - intros Hl Hflat Hok. apply (convert_file_success md fn data None u now σ); try done.
    apply default_name_segment.
  - apply unique_id_length.
  - intros u' x. rewrite <-unique_id_eq_iff. split; [apply default_name_token_inj|].
    by intros ->.
Qed.

(** C7: when the converter is reached and returns no result or empty text,
    the request is answered 422 and nothing is written into Converted: the
    two conversions by filename leave the whole filesystem unchanged, and
    POST /convert (directories in place, Uploads flat, temporary file saved)
    leaves every path under Converted unchanged. *)
Theorem empty_conversion_writes_nothing md (fn data : string) (out : option string)
    (u : N) (now : Z) (σ : fs) :
  let input := joinpath UPLOAD_DIR (basename fn) in
  let temp := joinpath UPLOAD_DIR (unique_id u +:+ "_" +:+ fn) in
  let saved := open_write temp data now σ in
  let post := respond (convert_file_by_name md fn out u now σ) in
  let get := respond (convert_file_by_name_get md fn out u now σ) in
  let direct := respond (convert_file md fn data out u now σ) in
  (fn ≠ "" → is_file σ input = true →
   empty_output (md σ (str_path input)) = true →
   status post.1 = 422 ∧ post.2 = σ ∧ status get.1 = 422 ∧ get.2 = σ) ∧
  (layout σ = true → no_subdirs σ UPLOAD_DIR = true →
   fn ≠ "" → saved.1 = inr () →
   empty_output (md saved.2 (str_path temp)) = true →
   status direct.1 = 422 ∧
   ∀ p, CONVERTED_DIR `prefix_of` p → direct.2 !! p = σ !! p).
Proof.
  intros input temp saved post get direct. split.
  - intros Hne Hf Hempty.
    destruct (by_name_empty md fn out u now σ Hne Hf Hempty) as [H1 H2]. done.
  - intros [Hup _]%layout_dirs Hflat Hne Hsaved Hempty.
    pose proof (convert_file_cases md fn data out u now σ Hup Hflat) as H.
    cbv zeta in H. fold temp direct in H.
    destruct H as [(? & _)|[(_ & Hnone & _)|(s & _ & Hs & Htemp & Hw & H)]]; [done| |].
    { subst saved. unfold open_write in Hsaved. by rewrite Hnone in Hsaved. }
    subst saved. rewrite Hw in Hempty. cbn [snd] in Hempty.
    assert (Hr : status direct.1 = 422 ∧ direct.2 = <[temp := File data now]> σ).
    { destruct (md _ _) as [msg|[res|]]; simpl in Hempty; try done.
      by rewrite Hempty in H. }
    destruct Hr as [Hst Hfs]. split; [done|]. intros p Hp. rewrite Hfs.
    apply lookup_insert_ne. rewrite Htemp. intros <-. by destruct Hp as [[|??] ?].
Qed.

(** What a conversion without [output_filename] leaves of every path other
    than the entry it names. *)
Lemma by_name_default_frame md fn u now (σ : fs) p :
  p ≠ CONVERTED_DIR ++ [stem (basename fn) +:+ "_" +:+ unique_id u +:+ ".md"] →
  (respond (convert_file_by_name md fn None u now σ)).2 !! p = σ !! p.
Proof.
  intros Hp. pose proof (by_name_cases md fn None u now σ) as H. cbv zeta in H.
  cbn [truthy] in H. cbv iota in H.
  destruct H as [(_ & -> & _)|[(_ & -> & _)|(_ & _ & H)]]; try done.
  destruct (md σ _) as [msg|[res|]]; try (by destruct H as [_ ->]).
  destruct (is_empty (text_content res)); [by destruct H as [_ ->]|].
  destruct (open_write_text _ _ now σ) as [x σ2] eqn:Hw.
  apply (write_converted_frame _ _ _ _ _ _ p) in Hw; [|apply default_name_segment|done].
  rewrite <-Hw. by destruct x as [e|[]]; [destruct H as [_ ->] | rewrite H].
Qed.

Lemma convert_file_default_frame md fn data u now (σ : fs) p :
  layout σ = true → no_subdirs σ UPLOAD_DIR = true →
  p ≠ CONVERTED_DIR ++ [stem fn +:+ "_" +:+ unique_id u +:+ ".md"] →
  p ≠ joinpath UPLOAD_DIR (unique_id u +:+ "_" +:+ fn) →
  (respond (convert_file md fn data None u now σ)).2 !! p = σ !! p.
Proof.
  intros [Hup _]%layout_dirs Hflat Hp Hpt.
  pose proof (convert_file_cases md fn data None u now σ Hup Hflat) as H.
  cbv zeta in H. cbn [truthy] in H. cbv iota in H.
  destruct H as [(_ & _ & ->)|[(_ & _ & _ & ->)|(s & _ & Hs & Htemp & _ & H)]]; try done.
  destruct (md _ _) as [msg|[res|]];
    try (destruct H as [_ ->]; by apply lookup_insert_ne).
  destruct (is_empty (text_content res));
    [destruct H as [_ ->]; by apply lookup_insert_ne|].
  destruct (open_write_text _ (text_content res) now _) as [x σ2] eqn:Hw.
  apply (write_converted_frame _ _ _ _ _ _ p) in Hw; [|apply default_name_segment|done].
  rewrite lookup_insert_ne in Hw by done. rewrite <-Hw.
  destruct x as [e|[]]; [destruct H as [_ ->] | rewrite H; cbn [snd]];
    by rewrite lookup_delete_ne.
Qed.

(** C10: an empty [output_filename] behaves as an omitted one on the three
    conversion endpoints (same response, same final filesystem): the request
    succeeds whenever its input can be converted and written, every request
    answered 200 reports and writes the entry [{stem}_{token}.md], and the
    entry [.md] of Converted is after the request what it was before it (for
    POST /convert with the directories in place and Uploads flat). *)
Theorem empty_override_is_omitted md (fn data : string) (u : N) (now : Z) (σ : fs) :
  let post out := respond (convert_file_by_name md fn out u now σ) in
  let get out := respond (convert_file_by_name_get md fn out u now σ) in
  let direct out := respond (convert_file md fn data out u now σ) in
  let by_name := stem (basename fn) +:+ "_" +:+ unique_id u +:+ ".md" in
  let by_upload := stem fn +:+ "_" +:+ unique_id u +:+ ".md" in
  let bare := CONVERTED_DIR ++ [".md"] in
  (post (Some "") = post None ∧ get (Some "") = get None ∧ direct (Some "") = direct None) ∧
  (by_name_ready md σ fn by_name →
   status (post (Some "")).1 = 200 ∧ status (get (Some "")).1 = 200) ∧
  (direct_ready md σ fn data u now by_upload → status (direct (Some "")).1 = 200) ∧
  (status (post (Some "")).1 = 200 →
   ∃ text, converted_as (post (Some "")) by_name text now) ∧
  (status (get (Some "")).1 = 200 →
   ∃ text, converted_as (get (Some "")) by_name text now) ∧
  (layout σ = true → no_subdirs σ UPLOAD_DIR = true →
   status (direct (Some "")).1 = 200 →
   ∃ text, converted_as (direct (Some "")) by_upload text now) ∧
  (post (Some "")).2 !! bare = σ !! bare ∧
  (get (Some "")).2 !! bare = σ !! bare ∧
  (layout σ = true → no_subdirs σ UPLOAD_DIR = true →
   (direct (Some "")).2 !! bare = σ !! bare).
Proof.
  intros post get direct by_name by_upload bare.
  change (post (Some "")) with (post None). change (get (Some "")) with (post None).
  change (get None) with (post None). change (direct (Some "")) with (direct None).
  assert (Hbare : (post None).2 !! bare = σ !! bare).
  { apply by_name_default_frame. intros [= Heq]. by apply (default_name_not_bare (basename fn) u). }
  split; [done|]. split; [|split; [|split; [|split; [|split; [|split; [|split]]]]]]; try done.
  - intros Hready.
    split; apply (by_name_ready_ok md fn None u now σ); try done; apply default_name_segment.
  - intros Hready. apply (direct_ready_ok md fn data None u now σ); [|done].
    apply default_name_segment.
  - intros Hok. apply (by_name_success md fn None u now σ); [|done].
    apply default_name_segment.
  - intros Hok. apply (by_name_success md fn None u now σ); [|done].
    apply default_name_segment.
  - intros Hl Hflat Hok. apply (convert_file_success md fn data None u now σ); try done.
    apply default_name_segment.
  - intros Hl Hflat. apply convert_file_default_frame; try done.
    + intros [= Heq]. by apply (default_name_not_bare fn u).
    + destruct (temp_path_cases σ u fn) as [(s & _ & ->)|Hnone];
        [by apply layout_dirs in Hl as [? _] | done | done |].
      intros Heq. rewrite <-Heq in Hnone. unfold bare in Hnone.
      apply layout_dirs in Hl as [_ Hconv]. rewrite resolve_child in Hnone; done.
Qed.

(** ** Listing, download and removal of converted files *)

Lemma glob_md_spec (σ : fs) d name n :
  is_dir σ d = true →
  (name, n) ∈ glob_md σ d ↔ σ !! (d ++ [name]) = Some n ∧ endswith name ".md" = true.
Proof.
  intros Hdir. unfold glob_md. unfold is_dir in Hdir.
  destruct (stat_node σ d) as [[|st]|]; try done.
  rewrite list_elem_of_In, filter_In, <-list_elem_of_In, scandir_spec. done.
Qed.

Lemma glob_md_NoDup (σ : fs) d : NoDup (glob_md σ d).*1.
Proof.
  unfold glob_md. destruct (stat_node σ d) as [[|st]|]; try constructor.
  pose proof (scandir_NoDup σ d) as Hnd.
  induction (scandir σ d) as [|[name n] l IH]; [constructor|].
  rewrite fmap_cons in Hnd. apply NoDup_cons in Hnd as [Hn Hl]. simpl.
  destruct (endswith name ".md"); [|by apply IH].
  rewrite fmap_cons. apply NoDup_cons. split; [|by apply IH].
  intros ([name' n'] & Heq & Hin)%list_elem_of_fmap. simpl in Heq. subst name'.
  apply list_elem_of_In, filter_In in Hin as [Hin _]. apply Hn.
  apply list_elem_of_fmap. exists (name, n'). by rewrite list_elem_of_In.
Qed.

Lemma list_converted_run (σ : fs) :
  let files := List.map (λ '(name, n), converted_entry name n) (glob_md σ CONVERTED_DIR) in
  respond (list_converted_files σ) =
  ({| status := 200; body := Files files (length files) |}, σ).
Proof. reflexivity. Qed.

(** C8, amended: when Converted is a directory that holds no subdirectory,
    GET /list-converted answers 200, changes nothing, and lists, each once,
    exactly its regular files whose name ends in [.md], each with its name,
    size, modification time and download URL. Whatever Converted holds, what
    is listed are its entries whose name ends in [.md] (their kind is not
    looked at), so an entry without the suffix never appears. *)
Theorem list_converted_exact (σ : fs) :
  is_dir σ CONVERTED_DIR = true →
  ∃ files,
    respond (list_converted_files σ) =
      ({| status := 200; body := Files files (length files) |}, σ) ∧
    NoDup (filename <$> files) ∧
    (∀ e, e ∈ files ↔
          ∃ name n,
            σ !! (CONVERTED_DIR ++ [name]) = Some n ∧
            endswith name ".md" = true ∧
            e = {| filename := name; size := st_size (stat_of n);
                   modified := st_mtime (stat_of n); url := "/download/" +:+ name |}) ∧
    (∀ name, endswith name ".md" = false → name ∉ filename <$> files) ∧
    (no_subdirs σ CONVERTED_DIR = true →
     ∀ e, e ∈ files ↔
          ∃ name data mtime,
            σ !! (CONVERTED_DIR ++ [name]) = Some (File data mtime) ∧
            endswith name ".md" = true ∧
            e = {| filename := name; size := String.length data; modified := mtime;
                   url := "/download/" +:+ name |}).
Proof.
  intros Hconv.
  assert (Hall : ∀ e, e ∈ List.map (λ '(name, n), converted_entry name n)
                               (glob_md σ CONVERTED_DIR) ↔
                      ∃ name n, σ !! (CONVERTED_DIR ++ [name]) = Some n ∧
                                endswith name ".md" = true ∧ e = converted_entry name n).
  { intros e. rewrite list_elem_of_In, in_map_iff. split.
    - intros ([name n] & <- & Hin).
      apply list_elem_of_In, glob_md_spec in Hin as [Hl He]; [|done]. by exists name, n.
    - intros (name & n & Hl & He & ->). exists (name, n). split; [done|].
      apply list_elem_of_In, glob_md_spec; done. }
  eexists. split; [apply list_converted_run|]. split; [|split; [|split]].
  - clear Hall. pose proof (glob_md_NoDup σ CONVERTED_DIR) as Hnd.
    induction (glob_md σ CONVERTED_DIR) as [|[name n] l IH]; [constructor|].
    rewrite fmap_cons in Hnd. apply NoDup_cons in Hnd as [Hn Hl].
    simpl. apply NoDup_cons. split; [|by apply IH].
    intros (e & Heq & Hin)%list_elem_of_fmap. simpl in Heq.
    apply list_elem_of_In, in_map_iff in Hin as ([name' n'] & <- & Hin).
    simpl in Heq. subst name'. apply Hn. apply list_elem_of_fmap.
    exists (name, n'). by rewrite list_elem_of_In.
  - exact Hall.
  - intros name Hname (e & -> & (name' & n & _ & He & ->)%Hall)%list_elem_of_fmap.
    simpl in Hname. congruence.
  - intros Hflat e. rewrite Hall. split.
    + intros (name & n & Hl & He & ->).
      destruct n as [data mtime|st]; [|by apply no_subdirs_spec in Hl].
      by exists name, data, mtime.
    + intros (name & data & mtime & Hl & He & ->). by exists name, (File data mtime).
Qed.

(** C9: a regular file of Converted whose name does not end in [.md] is
    served by GET /download (200, its content), removed by DELETE /delete
    (200, the entry gone), and absent from what GET /list-converted reports. *)
Theorem unlisted_file_served_and_removed (σ : fs) (name data : string) (mtime : Z) :
  layout σ = true → segment name = true → endswith name ".md" = false →
  σ !! (CONVERTED_DIR ++ [name]) = Some (File data mtime) →
  respond (download_converted_file name σ) =
    ({| status := 200;
        body := FileResponse (str_path (CONVERTED_DIR ++ [name])) name "text/markdown" data |},
     σ) ∧
  respond (delete_converted_file name σ) =
    ({| status := 200; body := Deleted ("File " +:+ name +:+ " deleted successfully") |},
     delete (CONVERTED_DIR ++ [name]) σ) ∧
  ∀ files total,
    body (respond (list_converted_files σ)).1 = Files files total →
    name ∉ filename <$> files.
Proof.
  intros [_ Hconv]%layout_dirs Hseg Hmd Hl.
  pose proof (segment_regular name Hseg) as Hreg.
  assert (Hst : stat_node σ (joinpath CONVERTED_DIR name) = Some (File data mtime)).
  { by rewrite stat_child. }
  split; [|split].
  - unfold download_converted_file, bind, path_exists, raise, respond, exists_.
    red_handler. rewrite Hst. red_handler. rewrite Hst.
    by rewrite joinpath_segment.
  - unfold delete_converted_file, try_except, bind, path_exists, raise, ret, respond, exists_.
    red_handler. rewrite Hst. red_handler.
    rewrite joinpath_segment by done.
    by rewrite (unlink_entry σ CONVERTED_DIR name data mtime).
  - intros files total. rewrite list_converted_run. cbn [fst body]. intros [= <- _].
    intros (e & Heq & Hin)%list_elem_of_fmap.
    apply list_elem_of_In, in_map_iff in Hin as ([name' n] & <- & Hin).
    simpl in Heq. subst name'.
    apply list_elem_of_In, glob_md_spec in Hin as [_ He]; [|done]. congruence.
Qed.

(** ** Handlers never create or remove a directory *)

Lemma same_dirs_refl (σ : fs) : same_dirs σ σ.
Proof. by intros p st. Qed.

Lemma same_dirs_trans (σ1 σ2 σ3 : fs) : same_dirs σ1 σ2 → same_dirs σ2 σ3 → same_dirs σ1 σ3.
Proof. intros H12 H23 p st. etrans; [apply H23 | apply H12]. Qed.

Lemma keeps_dirs_ret {A} (a : A) : keeps_dirs (ret a).
Proof. intros σ. apply same_dirs_refl. Qed.

Lemma keeps_dirs_raise {A} e : keeps_dirs (@raise A e).
Proof. intros σ. apply same_dirs_refl. Qed.

Lemma keeps_dirs_bind {A B} (m : M A) (k : A → M B) :
  keeps_dirs m → (∀ a, keeps_dirs (k a)) → keeps_dirs (bind m k).
Proof.
  intros Hm Hk σ. unfold bind. specialize (Hm σ).
  destruct (m σ) as [[e|a] σ']; [done|].
  eapply same_dirs_trans; [exact Hm | apply Hk].
Qed.

Lemma keeps_dirs_try {A} (m : M A) (h : exception → M A) :
  keeps_dirs m → (∀ e, keeps_dirs (h e)) → keeps_dirs (try_except m h).
Proof.
  intros Hm Hh σ. unfold try_except. specialize (Hm σ).
  destruct (m σ) as [[e|a] σ']; [|done].
  eapply same_dirs_trans; [exact Hm | apply Hh].
Qed.

Lemma keeps_dirs_if {A} (b : bool) (m1 m2 : M A) :
  keeps_dirs m1 → keeps_dirs m2 → keeps_dirs (if b then m1 else m2).
Proof. by destruct b. Qed.

Lemma keeps_dirs_read {A} (f : fs → exception + A) : keeps_dirs (λ σ, (f σ, σ)).
Proof. intros σ. apply same_dirs_refl. Qed.

Lemma keeps_dirs_open_write p data now : keeps_dirs (open_write p data now).
Proof.
  intros σ. unfold open_write. destruct (resolve σ p) as [q|]; [|apply same_dirs_refl].
  destruct (node_at σ q) as [[|st]|] eqn:Hn; try apply same_dirs_refl; intros p' st'; simpl.
  all: destruct (decide (q = p')) as [<-|Hne];
    [|by rewrite lookup_insert_ne].
  all: rewrite lookup_insert_eq; destruct q; [done|]; simpl in Hn; rewrite Hn; done.
Qed.

Lemma keeps_dirs_open_write_text p text now : keeps_dirs (open_write_text p text now).
Proof.
  intros σ. destruct (open_write_text p text now σ) as [x σ'] eqn:Hw. simpl.
  apply open_write_text_touch in Hw as [->|(q & d & Hq & Hnd & ->)]; [apply same_dirs_refl|].
  intros p' st'. destruct (decide (q = p')) as [<-|Hne]; [|by rewrite lookup_insert_ne].
  rewrite lookup_insert_eq. split; [done|]. intros Hl.
  destruct q as [|a q]; [by destruct (Hnd root_stat)|]. by destruct (Hnd st').
Qed.

Lemma keeps_dirs_unlink p : keeps_dirs (unlink p).
Proof.
  intros σ. unfold unlink. destruct (resolve σ p) as [q|]; [|apply same_dirs_refl].
  destruct (node_at σ q) as [[|st]|] eqn:Hn; try apply same_dirs_refl. intros p' st'; simpl.
  destruct (decide (q = p')) as [<-|Hne]; [|by rewrite lookup_delete_ne].
  rewrite lookup_delete_eq. destruct q; [done|]. simpl in Hn. by rewrite Hn.
Qed.

Lemma keeps_dirs_convert md path : keeps_dirs (convert md path).
Proof. intros σ. unfold convert. destruct (md σ path); apply same_dirs_refl. Qed.

Create HintDb keeps.

#[local] Hint Resolve keeps_dirs_ret keeps_dirs_raise keeps_dirs_open_write
  keeps_dirs_open_write_text keeps_dirs_unlink keeps_dirs_convert : keeps.

Ltac keeps_dirs_step :=
  match goal with
  | |- keeps_dirs (bind _ _) => apply keeps_dirs_bind; [|intros ?]
  | |- keeps_dirs (try_except _ _) => apply keeps_dirs_try; [|intros ?]
  | |- keeps_dirs (if _ then _ else _) => apply keeps_dirs_if
  | |- keeps_dirs (match ?x with _ => _ end) => destruct x
  | |- keeps_dirs (path_exists _) => apply keeps_dirs_read
  | |- keeps_dirs (path_is_file _) => apply keeps_dirs_read
  | |- keeps_dirs (reraise_or_500 _ _) => unfold reraise_or_500
  | |- keeps_dirs _ => solve [auto with keeps]
  end.

Lemma upload_keeps_dirs name data now : keeps_dirs (upload_file name data now).
Proof. unfold upload_file. repeat keeps_dirs_step. Qed.

Lemma by_name_keeps_dirs md fn out u now : keeps_dirs (convert_file_by_name md fn out u now).
Proof. unfold convert_file_by_name. repeat keeps_dirs_step. Qed.

Lemma by_name_get_keeps_dirs md fn out u now :
  keeps_dirs (convert_file_by_name_get md fn out u now).
Proof. unfold convert_file_by_name_get. repeat keeps_dirs_step. Qed.

Lemma convert_file_keeps_dirs md fn data out u now :
  keeps_dirs (convert_file md fn data out u now).
Proof. unfold convert_file. repeat keeps_dirs_step. Qed.

Lemma delete_keeps_dirs name : keeps_dirs (delete_converted_file name).
Proof. unfold delete_converted_file. repeat keeps_dirs_step. Qed.

Lemma download_keeps_dirs name : keeps_dirs (download_converted_file name).
Proof.
  unfold download_converted_file. repeat keeps_dirs_step.
  intros σ. destruct (stat_node σ _) as [[]|]; apply same_dirs_refl.
Qed.

Lemma list_converted_keeps_dirs : keeps_dirs list_converted_files.
Proof. unfold list_converted_files. apply keeps_dirs_try; [|intros ?; auto with keeps]. by intros σ. Qed.

Lemma list_uploaded_keeps_dirs : keeps_dirs list_uploaded_files.
Proof.
  unfold list_uploaded_files. apply keeps_dirs_try; [|intros ?; auto with keeps].
  intros σ. destruct (stat_node σ _) as [[]|]; apply same_dirs_refl.
Qed.

Lemma walk_same_dirs (σ σ' : fs) cur segs :
  same_dirs σ σ' → walk σ' cur segs = walk σ cur segs.
Proof.
  intros Hs. revert cur. induction segs as [|s segs IH]; intros cur; [done|]. simpl.
  assert (Hn : ∀ st, node_at σ' cur = Some (Dir st) ↔ node_at σ cur = Some (Dir st)).
  { intros st. destruct cur; [done|]. apply Hs. }
  destruct (node_at σ' cur) as [[|st']|] eqn:H', (node_at σ cur) as [[|st]|] eqn:H;
    try done; try apply IH.
  all: first [discriminate (proj2 (Hn _) eq_refl) | discriminate (proj1 (Hn _) eq_refl)].
Qed.

Lemma is_dir_same_dirs (σ σ' : fs) d : same_dirs σ σ' → is_dir σ' d = is_dir σ d.
Proof.
  intros Hs. unfold is_dir, stat_node, resolve. rewrite (walk_same_dirs σ σ') by done.
  destruct (walk σ [] d) as [q|]; [|done].
  assert (Hn : ∀ st, node_at σ' q = Some (Dir st) ↔ node_at σ q = Some (Dir st)).
  { intros st. destruct q; [done|]. apply Hs. }
  destruct (node_at σ' q) as [[|st']|] eqn:H', (node_at σ q) as [[|st]|] eqn:H; try done.
  all: first [discriminate (proj2 (Hn _) eq_refl) | discriminate (proj1 (Hn _) eq_refl)].
Qed.

Lemma no_subdirs_iff (σ : fs) d :
  no_subdirs σ d = true ↔ ∀ name st, σ !! (d ++ [name]) ≠ Some (Dir st).
Proof.
  split; [intros H name st; by apply no_subdirs_spec|].
  intros H. unfold no_subdirs. apply forallb_forall. intros [name n] Hin.
  apply list_elem_of_In, scandir_spec in Hin. destruct n as [|st]; [done|].
  by destruct (H name st).
Qed.

Lemma no_subdirs_same_dirs (σ σ' : fs) d :
  same_dirs σ σ' → no_subdirs σ d = true → no_subdirs σ' d = true.
Proof.
  rewrite !no_subdirs_iff. intros Hs H name st Hl. apply Hs in Hl. by apply (H name st).
Qed.

(** The layout assumed of the state is kept by every handler. *)
Lemma layout_kept {A} (m : M A) (σ : fs) :
  keeps_dirs m → layout σ = true →
  no_subdirs σ UPLOAD_DIR = true → no_subdirs σ CONVERTED_DIR = true →
  layout (m σ).2 = true ∧
  no_subdirs (m σ).2 UPLOAD_DIR = true ∧ no_subdirs (m σ).2 CONVERTED_DIR = true.
Proof.
  intros Hk Hl Hu Hc. specialize (Hk σ). unfold layout in *.
  rewrite (is_dir_same_dirs σ _ UPLOAD_DIR), (is_dir_same_dirs σ _ CONVERTED_DIR) by done.
  split; [done|]. split; by eapply no_subdirs_same_dirs.
Qed.

(** ** What the sanitized endpoints and the cleanup do achieve *)

(** POST /upload changes nothing but one entry of Uploads. *)
Lemma upload_confined (σ : fs) name data now p :
  layout σ = true →
  (respond (upload_file name data now σ)).2 !! p ≠ σ !! p →
  p = UPLOAD_DIR ++ [basename name] ∧ segment (basename name) = true.
Proof.
  intros [Hup _]%layout_dirs Hp.
  destruct (String.eqb_spec name "") as [->|Hne]; [done|].
  destruct (exists_ σ (joinpath UPLOAD_DIR (basename name))) eqn:Hex.
  - by rewrite upload_conflict in Hp.
  - rewrite upload_fresh in Hp by done. cbn [snd] in Hp.
    split; [|by eapply absent_is_segment, Hex; try apply basename_slash_free].
    destruct (decide (UPLOAD_DIR ++ [basename name] = p)) as [|Hd]; [done|].
    by rewrite lookup_insert_ne in Hp.
Qed.

(** Without [output_filename], conversion by filename changes nothing but
    one entry of Converted. *)
Lemma by_name_confined md fn u now (σ : fs) p :
  (respond (convert_file_by_name md fn None u now σ)).2 !! p ≠ σ !! p →
  p = CONVERTED_DIR ++ [stem (basename fn) +:+ "_" +:+ unique_id u +:+ ".md"].
Proof.
  intros Hp.
  destruct (decide (p = CONVERTED_DIR ++ [stem (basename fn) +:+ "_" +:+ unique_id u +:+ ".md"]))
    as [|Hd]; [done|].
  by rewrite by_name_default_frame in Hp.
Qed.

(** POST /convert removes its temporary file when it answers 200. *)
Lemma convert_file_success_cleans_up md fn data out u now (σ : fs) :
  let r := respond (convert_file md fn data out u now σ) in
  layout σ = true → no_subdirs σ UPLOAD_DIR = true → status r.1 = 200 →
  r.2 !! joinpath UPLOAD_DIR (unique_id u +:+ "_" +:+ fn) = None.
Proof.
  intros r [Hup _]%layout_dirs Hflat Hok.
  pose proof (convert_file_cases md fn data out u now σ Hup Hflat) as H.
  cbv zeta in H. fold r in H.
  destruct H as [(_ & H & _)|[(_ & _ & H & _)|(s & _ & Hs & Htemp & _ & H)]];
    try (rewrite H in Hok; done).
  destruct (md _ _) as [msg|[res|]]; try (destruct H as [H _]; rewrite H in Hok; done).
  destruct (is_empty (text_content res));
    try (destruct H as [H _]; rewrite H in Hok; done).
  destruct (open_write_text _ (text_content res) now _) as [[e|[]] σ2] eqn:Hw;
    [destruct H as [H _]; rewrite H in Hok; done|].
  rewrite H. cbn [snd]. apply lookup_delete_eq.
Qed.

(** ** Concrete runs *)

(** C2: a conversion that fails or yields nothing answers 422 and leaves
    the temporary file of POST /convert in Uploads. *)
Theorem convert_422_leaves_temp_file :
  let temp := UPLOAD_DIR ++ ["12345678_a.txt"] in
  let empty := respond (convert_file silent "a.txt" "hello" None sample_uuid 5 fresh) in
  let failed := respond (convert_file failing "a.txt" "hello" None sample_uuid 5 fresh) in
  fresh !! temp = None ∧
  status empty.1 = 422 ∧ empty.2 !! temp = Some (File "hello" 5) ∧
  status failed.1 = 422 ∧ failed.2 !! temp = Some (File "hello" 5).
Proof. vm_compute. done. Qed.

(** C1: an [output_filename] with parent-directory components makes
    POST /convert-by-filename write outside the Converted directory. *)
Theorem output_filename_escapes_converted :
  let r := respond (convert_file_by_name echo "a.txt" (Some "../uploads/pwned")
                      sample_uuid 9 one_upload) in
  one_upload !! (UPLOAD_DIR ++ ["pwned.md"]) = None ∧
  status r.1 = 200 ∧
  r.2 !! (UPLOAD_DIR ++ ["pwned.md"]) = Some (File "abc" 9) ∧
  r.2 !! (CONVERTED_DIR ++ ["pwned.md"]) = None.
Proof. vm_compute. done. Qed.

(** The handlers of /delete and /download join the name they are given as
    it is: given a name with parent-directory components, the removal
    reaches Uploads, and the name [..] makes both look at [/app]. *)
Lemma raw_name_leaves_converted :
  let gone := respond (delete_converted_file "../uploads/a.txt" one_upload) in
  status gone.1 = 200 ∧ gone.2 !! (UPLOAD_DIR ++ ["a.txt"]) = None ∧
  resolve fresh (joinpath CONVERTED_DIR "..") = Some ["app"] ∧
  status (respond (delete_converted_file ".." fresh)).1 = 500 ∧
  status (respond (download_converted_file ".." fresh)).1 = 500.
Proof. vm_compute. done. Qed.

(** C4 as stated fails: for a directory sitting in Uploads both conversions
    by filename answer 400, not 404. *)
Lemma by_name_directory_is_400 :
  let input := joinpath UPLOAD_DIR (basename "docs") in
  let post := respond (convert_file_by_name echo "docs" None sample_uuid 9 with_subdir) in
  let get := respond (convert_file_by_name_get echo "docs" None sample_uuid 9 with_subdir) in
  exists_ with_subdir input = true ∧ is_file with_subdir input = false ∧
  status post.1 = 400 ∧ status get.1 = 400 ∧ status post.1 ≠ 404.
Proof. vm_compute. done. Qed.

(** C6 as stated fails: two conversions of the same upload under different
    UUIDs that agree on their first eight digits get the same name, and the
    second overwrites the file of the first. *)
Lemma same_token_overwrites :
  let first := respond (convert_file_by_name echo "a.txt" None sample_uuid 9 one_upload) in
  let second := respond (convert_file_by_name echo "a.txt" None other_uuid 10 first.2) in
  let entry := CONVERTED_DIR ++ ["a_12345678.md"] in
  sample_uuid ≠ other_uuid ∧
  status first.1 = 200 ∧ status second.1 = 200 ∧
  body second.1 = body first.1 ∧
  first.2 !! entry = Some (File "abc" 9) ∧
  second.2 !! entry = Some (File "abc" 10) ∧
  (scandir second.2 CONVERTED_DIR).*1 = ["a_12345678.md"].
Proof. split; [by vm_compute|]. vm_compute. done. Qed.

(** C8 as stated fails: a directory of Converted whose name ends in [.md]
    is listed, with the size and time of the directory. *)
Lemma directory_is_listed :
  is_dir with_md_dir (CONVERTED_DIR ++ ["d.md"]) = true ∧
  is_file with_md_dir (CONVERTED_DIR ++ ["d.md"]) = false ∧
  ∃ files,
    (respond (list_converted_files with_md_dir)).1 =
      {| status := 200; body := Files files 2 |} ∧
    {| filename := "d.md"; size := st_size (stat_of dir0); modified := 0;
       url := "/download/d.md" |} ∈ files.
Proof.
  do 2 (split; [vm_compute; reflexivity|]).
  eexists. split; [vm_compute; reflexivity|]. repeat constructor.
Qed.

(** ** Instances *)

(** C3 at a traversal name: the file lands in Uploads as [passwd]. *)
Lemma upload_then_conflict_witness :
  layout fresh = true ∧
  exists_ fresh (joinpath UPLOAD_DIR (basename "../../etc/passwd")) = false ∧
  let r1 := respond (upload_file "../../etc/passwd" "hello" 1 fresh) in
  let r2 := respond (upload_file "passwd" "other" 2 r1.2) in
  status r1.1 = 200 ∧
  r1.2 !! (UPLOAD_DIR ++ ["passwd"]) = Some (File "hello" 1) ∧
  (∀ p, p ≠ UPLOAD_DIR ++ ["passwd"] → r1.2 !! p = fresh !! p) ∧
  status r2.1 = 409 ∧
  r2.2 = r1.2.
Proof.
  split; [vm_compute; reflexivity|]. split; [vm_compute; reflexivity|].
  apply (upload_then_conflict fresh "../../etc/passwd" "passwd" "hello" "other" 1 2);
    vm_compute; reflexivity.
Defined.

(** C4 amended, at a directory (400) and at an absent name (404). *)
Lemma by_name_missing_input_witness :
  (is_file with_subdir (joinpath UPLOAD_DIR (basename "docs")) = false ∧
   status (respond (convert_file_by_name echo "docs" None sample_uuid 9 with_subdir)).1 = 400 ∧
   (respond (convert_file_by_name echo "docs" None sample_uuid 9 with_subdir)).2 = with_subdir) ∧
  (is_file fresh (joinpath UPLOAD_DIR (basename "x/gone.txt")) = false ∧
   status (respond (convert_file_by_name echo "x/gone.txt" None sample_uuid 9 fresh)).1 = 404 ∧
   (respond (convert_file_by_name echo "x/gone.txt" None sample_uuid 9 fresh)).2 = fresh).
Proof.
  split.
  - split; [vm_compute; reflexivity|].
    destruct (by_name_missing_input echo "docs" None sample_uuid 9 with_subdir)
      as (H1 & H2 & _); [discriminate | vm_compute; reflexivity|].
    split; [exact H1 | exact H2].
  - split; [vm_compute; reflexivity|].
    destruct (by_name_missing_input echo "x/gone.txt" None sample_uuid 9 fresh)
      as (H1 & H2 & _); [discriminate | vm_compute; reflexivity|].
    split; [exact H1 | exact H2].
Defined.

(** C6 amended, at the override ["report"] and without override, on the
    three endpoints. *)
Lemma converted_filename_policy_witness :
  let post out := respond (convert_file_by_name echo "a.txt" out sample_uuid 9 one_upload) in
  let get out := respond (convert_file_by_name_get echo "a.txt" out sample_uuid 9 one_upload) in
  let direct out := respond (convert_file echo "b.pdf" "text" out sample_uuid 9 one_upload) in
  (by_name_ready echo one_upload "a.txt" "report.md" ∧
   by_name_ready echo one_upload "a.txt" "a_12345678.md" ∧
   direct_ready echo one_upload "b.pdf" "text" sample_uuid 9 "report.md" ∧
   direct_ready echo one_upload "b.pdf" "text" sample_uuid 9 "b_12345678.md") ∧
  (status (post (Some "report")).1 = 200 ∧ status (get (Some "report")).1 = 200 ∧
   status (direct (Some "report")).1 = 200 ∧
   status (post None).1 = 200 ∧ status (get None).1 = 200 ∧ status (direct None).1 = 200) ∧
  (∃ text, converted_as (post (Some "report")) "report.md" text 9) ∧
  (∃ text, converted_as (get (Some "report")) "report.md" text 9) ∧
  (∃ text, converted_as (direct (Some "report")) "report.md" text 9) ∧
  (∃ text, converted_as (post None) "a_12345678.md" text 9) ∧
  (∃ text, converted_as (get None) "a_12345678.md" text 9) ∧
  (∃ text, converted_as (direct None) "b_12345678.md" text 9).
Proof.
  assert (Hb : ∀ name, one_upload !! (CONVERTED_DIR ++ [name]) = None →
            by_name_ready echo one_upload "a.txt" name).
  { intros name Hname. split; [discriminate|]. split; [vm_compute; reflexivity|].
    split; [|split; [vm_compute; reflexivity | intros st; by rewrite Hname]].
    exists {| text_content := latin1_decode "abc" |}, "abc".
    split; [vm_compute; reflexivity|]. split; [discriminate | vm_compute; reflexivity]. }
  assert (Hd : ∀ name, one_upload !! (CONVERTED_DIR ++ [name]) = None →
            direct_ready echo one_upload "b.pdf" "text" sample_uuid 9 name).
  { intros name Hname. split; [discriminate|]. do 3 (split; [vm_compute; reflexivity|]).
    split; [|intros st; by rewrite Hname].
    exists {| text_content := latin1_decode "text" |}, "text".
    split; [vm_compute; reflexivity|]. split; [discriminate | vm_compute; reflexivity]. }
  assert (Hb1 : by_name_ready echo one_upload "a.txt" "report.md")
    by (apply Hb; vm_compute; reflexivity).
  assert (Hb2 : by_name_ready echo one_upload "a.txt" "a_12345678.md")
    by (apply Hb; vm_compute; reflexivity).
  assert (Hd1 : direct_ready echo one_upload "b.pdf" "text" sample_uuid 9 "report.md")
    by (apply Hd; vm_compute; reflexivity).
  assert (Hd2 : direct_ready echo one_upload "b.pdf" "text" sample_uuid 9 "b_12345678.md")
    by (apply Hd; vm_compute; reflexivity).
  cbv beta zeta. split; [exact (conj Hb1 (conj Hb2 (conj Hd1 Hd2)))|].
  destruct (converted_filename_policy echo "a.txt" "text" sample_uuid 9 one_upload)
    as (Hover & Hby & _ & Hpost & Hget & _).
  destruct (converted_filename_policy echo "b.pdf" "text" sample_uuid 9 one_upload)
    as (Hover' & _ & Hup & _ & _ & Hdirect & _).
  destruct (Hover "report") as (Hr & _ & Hp & Hg & _); [discriminate | reflexivity|].
  destruct (Hover' "report") as (_ & Hr' & _ & _ & Hdr); [discriminate | reflexivity|].
  destruct (Hr Hb1) as [Hs1 Hs2]. destruct (Hby Hb2) as [Hs3 Hs4].
  pose proof (Hr' Hd1) as Hs5. pose proof (Hup Hd2) as Hs6.
  split; [exact (conj Hs1 (conj Hs2 (conj Hs5 (conj Hs3 (conj Hs4 Hs6)))))|].
  split; [exact (Hp Hs1)|]. split; [exact (Hg Hs2)|].
  split; [apply Hdr; [vm_compute; reflexivity..|exact Hs5]|].
  split; [exact (Hpost Hs3)|]. split; [exact (Hget Hs4)|].
  apply Hdirect; [vm_compute; reflexivity..|exact Hs6].
Defined.

(** C7 with a converter that returns empty text. *)
Lemma empty_conversion_writes_nothing_witness :
  let temp := joinpath UPLOAD_DIR (unique_id sample_uuid +:+ "_" +:+ "a.txt") in
  let post := respond (convert_file_by_name silent "a.txt" None sample_uuid 9 one_upload) in
  let direct := respond (convert_file silent "a.txt" "hello" None sample_uuid 5 one_upload) in
  (is_file one_upload (joinpath UPLOAD_DIR (basename "a.txt")) = true ∧
   status post.1 = 422 ∧ post.2 = one_upload) ∧
  (layout one_upload = true ∧ no_subdirs one_upload UPLOAD_DIR = true ∧
   (open_write temp "hello" 5 one_upload).1 = inr () ∧
   status direct.1 = 422 ∧
   ∀ p, CONVERTED_DIR `prefix_of` p → direct.2 !! p = one_upload !! p).
Proof.
  intros temp post direct.
  destruct (empty_conversion_writes_nothing silent "a.txt" "hello" None sample_uuid 9 one_upload)
    as [Hby _].
  destruct (empty_conversion_writes_nothing silent "a.txt" "hello" None sample_uuid 5 one_upload)
    as [_ Hdirect].
  split.
  - split; [vm_compute; reflexivity|].
    destruct Hby as (H1 & H2 & _); [discriminate | vm_compute; reflexivity..|].
    split; [exact H1 | exact H2].
  - do 3 (split; [vm_compute; reflexivity|]).
    apply Hdirect; [vm_compute; reflexivity | vm_compute; reflexivity | discriminate
                   | vm_compute; reflexivity | reflexivity].
Defined.

(** C10 on the three endpoints: the empty override gives the token-derived
    name. *)
Lemma empty_override_is_omitted_witness :
  let post := respond (convert_file_by_name echo "a.txt" (Some "") sample_uuid 9 one_upload) in
  let get := respond (convert_file_by_name_get echo "a.txt" (Some "") sample_uuid 9 one_upload) in
  let direct := respond (convert_file echo "b.pdf" "text" (Some "") sample_uuid 9 one_upload) in
  (by_name_ready echo one_upload "a.txt" "a_12345678.md" ∧
   direct_ready echo one_upload "b.pdf" "text" sample_uuid 9 "b_12345678.md") ∧
  (status post.1 = 200 ∧ status get.1 = 200 ∧ status direct.1 = 200) ∧
  (∃ text, converted_as post "a_12345678.md" text 9) ∧
  (∃ text, converted_as get "a_12345678.md" text 9) ∧
  (∃ text, converted_as direct "b_12345678.md" text 9) ∧
  post.2 !! (CONVERTED_DIR ++ [".md"]) = None ∧
  get.2 !! (CONVERTED_DIR ++ [".md"]) = None ∧
  direct.2 !! (CONVERTED_DIR ++ [".md"]) = None.
Proof.
  cbv zeta.
  assert (Hb : by_name_ready echo one_upload "a.txt" "a_12345678.md").
  { split; [discriminate|]. split; [vm_compute; reflexivity|].
    split; [|split; [vm_compute; reflexivity | intros st; vm_compute; discriminate]].
    exists {| text_content := latin1_decode "abc" |}, "abc".
    split; [vm_compute; reflexivity|]. split; [discriminate | vm_compute; reflexivity]. }
  assert (Hd : direct_ready echo one_upload "b.pdf" "text" sample_uuid 9 "b_12345678.md").
  { split; [discriminate|]. do 3 (split; [vm_compute; reflexivity|]).
    split; [|intros st; vm_compute; discriminate].
    exists {| text_content := latin1_decode "text" |}, "text".
    split; [vm_compute; reflexivity|]. split; [discriminate | vm_compute; reflexivity]. }
  split; [exact (conj Hb Hd)|].
  destruct (empty_override_is_omitted echo "a.txt" "text" sample_uuid 9 one_upload)
    as (_ & Hby & _ & Hpost & Hget & _ & Hb1 & Hb2 & _).
  destruct (empty_override_is_omitted echo "b.pdf" "text" sample_uuid 9 one_upload)
    as (_ & _ & Hup & _ & _ & Hdirect & _ & _ & Hb3).
  destruct (Hby Hb) as [Hs1 Hs2]. pose proof (Hup Hd) as Hs3.
  split; [exact (conj Hs1 (conj Hs2 Hs3))|].
  split; [exact (Hpost Hs1)|]. split; [exact (Hget Hs2)|].
  split; [apply Hdirect; [vm_compute; reflexivity..|exact Hs3]|].
  split; [rewrite Hb1; vm_compute; reflexivity|].
  split; [rewrite Hb2; vm_compute; reflexivity|].
  rewrite Hb3; vm_compute; reflexivity.
Defined.

(** C8 amended, on a flat Converted directory holding [a.md] and
    [notes.txt], and on one that holds the directory [d.md] as well. *)
Lemma list_converted_exact_witness :
  (is_dir mixed CONVERTED_DIR = true ∧ no_subdirs mixed CONVERTED_DIR = true ∧
   ∃ files,
     respond (list_converted_files mixed) =
       ({| status := 200; body := Files files (length files) |}, mixed) ∧
     (∀ e, e ∈ files ↔
           ∃ name data mtime,
             mixed !! (CONVERTED_DIR ++ [name]) = Some (File data mtime) ∧
             endswith name ".md" = true ∧
             e = {| filename := name; size := String.length data; modified := mtime;
                    url := "/download/" +:+ name |}) ∧
     "notes.txt" ∉ filename <$> files) ∧
  (is_dir with_md_dir CONVERTED_DIR = true ∧
   ∃ files,
     respond (list_converted_files with_md_dir) =
       ({| status := 200; body := Files files (length files) |}, with_md_dir) ∧
     "notes.txt" ∉ filename <$> files).
Proof.
  split.
  - do 2 (split; [vm_compute; reflexivity|]).
    destruct (list_converted_exact mixed) as (files & Hrun & _ & _ & Hnot & Hfiles);
      [vm_compute; reflexivity|].
    exists files. split; [exact Hrun|]. split; [|apply Hnot; vm_compute; reflexivity].
    apply Hfiles. vm_compute. reflexivity.
  - split; [vm_compute; reflexivity|].
    destruct (list_converted_exact with_md_dir) as (files & Hrun & _ & _ & Hnot & _);
      [vm_compute; reflexivity|].
    exists files. split; [exact Hrun|]. apply Hnot. vm_compute. reflexivity.
Defined.

(** C9 at [notes.txt]. *)
Lemma unlisted_file_served_and_removed_witness :
  layout mixed = true ∧ segment "notes.txt" = true ∧ endswith "notes.txt" ".md" = false ∧
  mixed !! (CONVERTED_DIR ++ ["notes.txt"]) = Some (File "plain" 3) ∧
  respond (download_converted_file "notes.txt" mixed) =
    ({| status := 200;
        body := FileResponse "/app/converted/notes.txt" "notes.txt" "text/markdown" "plain" |},
     mixed) ∧
  respond (delete_converted_file "notes.txt" mixed) =
    ({| status := 200; body := Deleted "File notes.txt deleted successfully" |},
     delete (CONVERTED_DIR ++ ["notes.txt"]) mixed) ∧
  ∀ files total,
    body (respond (list_converted_files mixed)).1 = Files files total →
    "notes.txt" ∉ filename <$> files.
Proof.
  do 4 (split; [vm_compute; reflexivity|]).
  apply (unlisted_file_served_and_removed mixed "notes.txt" "plain" 3); vm_compute; reflexivity.
Defined.


(** * Further properties of the handlers *)

(** ** The sanitizer and the path it yields *)

Lemma basename_skips a r : rfind "/"%char r ≠ None → basename (String a r) = basename r.
Proof.
  unfold basename. simpl rfind. by destruct (rfind "/"%char r) as [i|].
Qed.

Lemma basename_after_slash s : slash_free s → basename (String "/"%char s) = s.
Proof. unfold slash_free, basename. simpl rfind. by intros ->. Qed.

Lemma rfind_app_slash d s : rfind "/"%char (d +:+ String "/"%char s) ≠ None.
Proof.
  induction d as [|a d IH].
  - simpl. by destruct (rfind "/"%char s).
  - change (String a d +:+ String "/"%char s) with (String a (d +:+ String "/"%char s)).
    simpl rfind. by destruct (rfind "/"%char (d +:+ String "/"%char s)).
Qed.

(** X1: [os.path.basename], as the handlers use it to sanitize a name, keeps
    exactly what follows the last separator: the result holds no separator,
    sanitizing twice changes nothing, and whatever directory part [d]
    precedes a separator-free name [s], the name [d/s] is sanitized to [s]. *)
Theorem sanitizer_keeps_final_segment (d s : string) :
  slash_free (basename s) ∧
  basename (basename s) = basename s ∧
  (slash_free s → basename (d +:+ "/" +:+ s) = s).
Proof.
  split; [apply basename_slash_free|]. split; [apply basename_id, basename_slash_free|].
  intros Hs. induction d as [|a d IH].
  - by apply basename_after_slash.
  - change (String a d +:+ "/" +:+ s) with (String a (d +:+ String "/"%char s)).
    rewrite basename_skips by apply rfind_app_slash. exact IH.
Qed.

(** X2: with Uploads in place, the path a handler builds from a sanitized
    name resolves to the entry of that name in Uploads when the name is a
    plain entry name, to [/app] when it is [..], and to Uploads itself when
    it is empty or [.]: it never reaches anything else. *)
Theorem sanitized_path_resolves (σ : fs) (s : string) :
  is_dir σ UPLOAD_DIR = true →
  resolve σ (joinpath UPLOAD_DIR (basename s)) =
  Some (if segment (basename s) then UPLOAD_DIR ++ [basename s]
        else if String.eqb (basename s) ".." then ["app"]
        else UPLOAD_DIR).
Proof.
  intros Hup. pose proof (basename_slash_free s) as Hs.
  destruct (is_dir_resolve σ UPLOAD_DIR) as [Hr [st Hn]]; [done..|].
  destruct (segment (basename s)) eqn:Hseg.
  - rewrite joinpath_segment by done. apply resolve_child; try done.
    by apply segment_regular.
  - destruct (String.eqb_spec (basename s) "..") as [->|Hdd].
    + change (joinpath UPLOAD_DIR "..") with (UPLOAD_DIR ++ [".."]).
      rewrite resolve_below by done. cbn [walk]. by rewrite Hn.
    + assert (basename s = "" ∨ basename s = ".") as [->| ->].
      { destruct (String.eqb_spec (basename s) "") as [|H1]; [by left|].
        destruct (String.eqb_spec (basename s) ".") as [|H2]; [by right|].
        assert (segment (basename s) = true) by (by apply segment_spec). congruence. }
      * by change (joinpath UPLOAD_DIR "") with UPLOAD_DIR.
      * by change (joinpath UPLOAD_DIR ".") with UPLOAD_DIR.
Qed.

Lemma sanitized_path_resolves_witness :
  is_dir one_upload UPLOAD_DIR = true ∧
  resolve one_upload (joinpath UPLOAD_DIR (basename "../../etc/passwd")) =
    Some (UPLOAD_DIR ++ ["passwd"]) ∧
  resolve one_upload (joinpath UPLOAD_DIR (basename "x/..")) = Some ["app"].
Proof.
  split; [vm_compute; reflexivity|]. split.
  - apply (sanitized_path_resolves one_upload "../../etc/passwd"). vm_compute; reflexivity.
  - apply (sanitized_path_resolves one_upload "x/.."). vm_compute; reflexivity.
Defined.

(** ** POST /upload *)

(** X3: POST /upload answers 200, 400, 409 or 500 and nothing else, 400
    exactly for an empty filename; when the answer is not 200 the filesystem
    is left as it was; and whatever the answer, every file or directory that
    existed before the request is still there with the same content: an
    upload never overwrites. *)
Theorem upload_never_overwrites (σ : fs) (name data : string) (now : Z) :
  let r := respond (upload_file name data now σ) in
  (status r.1 = 200 ∨ status r.1 = 400 ∨ status r.1 = 409 ∨ status r.1 = 500) ∧
  (status r.1 = 400 ↔ name = "") ∧
  (status r.1 ≠ 200 → r.2 = σ) ∧
  (∀ p n, σ !! p = Some n → r.2 !! p = Some n).
Proof.
  unfold upload_file, try_except, bind, path_exists, raise, ret, reraise_or_500, respond.
  red_handler. destruct (String.eqb_spec name "") as [->|Hne]; red_handler.
  { repeat split; auto. }
  destruct (exists_ σ _) eqn:Hex; red_handler.
  { repeat split; auto; try done. }
  unfold open_write, exists_, stat_node in *.
  destruct (resolve σ _) as [q|]; red_handler; [|repeat split; auto; done].
  destruct (node_at σ q) as [n0|] eqn:Hq; [done|]. red_handler.
  repeat split; auto; try done.
  intros p n Hp. rewrite lookup_insert_ne; [done|]. intros <-.
  destruct q; [done|]. simpl in Hq. congruence.
Qed.

(** X4: with Uploads in place, GET /list-uploads answers 200, changes
    nothing, and lists, each once, exactly the regular files directly in
    Uploads (a subdirectory is skipped), each with its name, size,
    modification time and conversion URL; [total_files] is their number. *)
Theorem list_uploads_exact (σ : fs) :
  is_dir σ UPLOAD_DIR = true →
  ∃ files,
    respond (list_uploaded_files σ) =
      ({| status := 200; body := Files files (length files) |}, σ) ∧
    NoDup (filename <$> files) ∧
    ∀ e, e ∈ files ↔
         ∃ name data mtime,
           σ !! (UPLOAD_DIR ++ [name]) = Some (File data mtime) ∧
           e = {| filename := name; size := String.length data; modified := mtime;
                  url := "/convert-by-filename/" +:+ name |}.
Proof.
  intros Hup. unfold is_dir in Hup.
  unfold list_uploaded_files, try_except, respond.
  destruct (stat_node σ UPLOAD_DIR) as [[|st]|]; try done.
  eexists. split; [reflexivity|]. split.
  - pose proof (scandir_NoDup σ UPLOAD_DIR) as Hnd.
    induction (scandir σ UPLOAD_DIR) as [|[name n] l IH]; [constructor|].
    rewrite fmap_cons in Hnd. apply NoDup_cons in Hnd as [Hn Hl].
    simpl omap. destruct n as [data mtime|st']; [|by apply IH].
    rewrite fmap_cons. apply NoDup_cons. split; [|by apply IH].
    intros (e & Heq & Hin)%list_elem_of_fmap. simpl in Heq.
    apply list_elem_of_omap in Hin as ([name' n'] & Hin & He).
    destruct n' as [data' mtime'|]; [|done]. injection He as <-. simpl in Heq. subst name'.
    apply Hn. apply list_elem_of_fmap. by exists (name, File data' mtime').
  - intros e. rewrite list_elem_of_omap. split.
    + intros ([name n] & Hin & He). apply scandir_spec in Hin.
      destruct n as [data mtime|]; [|done]. injection He as <-.
      by exists name, data, mtime.
    + intros (name & data & mtime & Hl & ->). exists (name, File data mtime).
      split; [by apply scandir_spec | done].
Qed.

Lemma list_uploads_exact_witness :
  is_dir with_subdir UPLOAD_DIR = true ∧
  ∃ files,
    respond (list_uploaded_files with_subdir) =
      ({| status := 200; body := Files files (length files) |}, with_subdir) ∧
    ∀ e, e ∈ files ↔
         ∃ name data mtime,
           with_subdir !! (UPLOAD_DIR ++ [name]) = Some (File data mtime) ∧
           e = {| filename := name; size := String.length data; modified := mtime;
                  url := "/convert-by-filename/" +:+ name |}.
Proof.
  split; [vm_compute; reflexivity|].
  destruct (list_uploads_exact with_subdir) as (files & Hrun & _ & Hfiles);
    [vm_compute; reflexivity|].
  exists files. split; [exact Hrun | exact Hfiles].
Defined.

(** X5: when a directory is missing the two listings differ: GET
    /list-uploads fails with 500 if Uploads is not a directory, while GET
    /list-converted answers 200 with an empty list if Converted is not one;
    neither changes anything. *)
Theorem listing_without_directory (σ : fs) :
  (is_dir σ UPLOAD_DIR = false →
   status (respond (list_uploaded_files σ)).1 = 500 ∧
   (respond (list_uploaded_files σ)).2 = σ) ∧
  (is_dir σ CONVERTED_DIR = false →
   respond (list_converted_files σ) = ({| status := 200; body := Files [] 0 |}, σ)).
Proof.
  split.
  - unfold is_dir, list_uploaded_files, try_except, raise, respond.
    by destruct (stat_node σ UPLOAD_DIR) as [[|st]|].
  - intros Hc. rewrite list_converted_run. unfold glob_md. unfold is_dir in Hc.
    by destruct (stat_node σ CONVERTED_DIR) as [[|st]|].
Qed.

Lemma listing_without_directory_witness :
  is_dir ∅ UPLOAD_DIR = false ∧ is_dir ∅ CONVERTED_DIR = false ∧
  status (respond (list_uploaded_files ∅)).1 = 500 ∧
  respond (list_converted_files ∅) = ({| status := 200; body := Files [] 0 |}, ∅).
Proof.
  do 2 (split; [vm_compute; reflexivity|]).
  destruct (listing_without_directory ∅) as [Hu Hc].
  split; [apply Hu | apply Hc]; vm_compute; reflexivity.
Defined.

(** ** Conversion by filename *)

(** X6: a conversion by filename (POST or GET) answers 200, 400, 404, 422
    or 500 and nothing else, and whatever the answer it changes at most the
    file that its output path resolves to. When the answer is 400, 404 or 422
    the filesystem is left exactly as it was. When it is 500, either nothing
    changed, or the output file had been opened when the text turned out to be
    one that UTF-8 cannot encode: that file is then left empty, whatever it
    held before. *)
Theorem by_name_exits md (fn : string) (out : option string) (u : N) (now : Z) (σ : fs) :
  let post := respond (convert_file_by_name md fn out u now σ) in
  let get := respond (convert_file_by_name_get md fn out u now σ) in
  let output :=
    joinpath CONVERTED_DIR
      (if truthy out then fmt out +:+ ".md"
       else stem (basename fn) +:+ "_" +:+ unique_id u +:+ ".md") in
  get = post ∧
  (status post.1 = 200 ∨ status post.1 = 400 ∨ status post.1 = 404 ∨
   status post.1 = 422 ∨ status post.1 = 500) ∧
  (∀ p, resolve σ output ≠ Some p → post.2 !! p = σ !! p) ∧
  (status post.1 = 400 ∨ status post.1 = 404 ∨ status post.1 = 422 → post.2 = σ) ∧
  (status post.1 = 500 →
   post.2 = σ ∨
   ∃ q res,
     md σ (str_path (joinpath UPLOAD_DIR (basename fn))) = Returns (Some res) ∧
     utf8_encode (text_content res) = None ∧
     resolve σ output = Some q ∧
     post.2 = <[q := File "" now]> σ).
Proof.
  intros post get output. split; [done|].
  assert (Hquiet : ∀ c, c = 400 ∨ c = 404 ∨ c = 422 → status post.1 = c → post.2 = σ →
    (status post.1 = 200 ∨ status post.1 = 400 ∨ status post.1 = 404 ∨
     status post.1 = 422 ∨ status post.1 = 500) ∧
    (∀ p, resolve σ output ≠ Some p → post.2 !! p = σ !! p) ∧
    (status post.1 = 400 ∨ status post.1 = 404 ∨ status post.1 = 422 → post.2 = σ) ∧
    (status post.1 = 500 →
     post.2 = σ ∨
     ∃ q res,
       md σ (str_path (joinpath UPLOAD_DIR (basename fn))) = Returns (Some res) ∧
       utf8_encode (text_content res) = None ∧
       resolve σ output = Some q ∧
       post.2 = <[q := File "" now]> σ)).
  { intros c Hc Hs Hσ. split; [lia|]. split; [by rewrite Hσ|]. split; [done|]. by left. }
  pose proof (by_name_cases md fn out u now σ) as H. cbv zeta in H. fold post output in H.
  destruct H as [(H1 & H2 & _)|[(H1 & H2 & _)|(_ & _ & H)]];
    [apply (Hquiet 400); auto | apply (Hquiet 404); auto |].
  destruct (md σ _) as [msg|[res|]] eqn:Hmd;
    try (destruct H as [H1 H2]; apply (Hquiet 422); by auto).
  destruct (is_empty (text_content res));
    [destruct H as [H1 H2]; apply (Hquiet 422); by auto|].
  destruct (open_write_text output _ now σ) as [x σ2] eqn:Hw.
  assert (Hframe : ∀ p, resolve σ output ≠ Some p → σ2 !! p = σ !! p).
  { intros p Hp. pose proof Hw as [->|(q & d & Hq & _ & ->)]%open_write_text_touch; [done|].
    apply lookup_insert_ne. congruence. }
  destruct x as [e|[]].
  - destruct H as [H1 H2]. split; [lia|]. rewrite H2. split; [done|]. split; [lia|].
    intros _. apply open_write_text_fails in Hw as [_ [->|(q & Hq & _ & He & ->)]]; [by left|].
    right. by exists q, res.
  - rewrite H. cbn [fst snd status]. split; [lia|]. split; [done|]. split; lia.
Qed.

(** X6 where the text is a lone surrogate and [report.md] exists already:
    the answer is 500 and the earlier file is emptied. *)
Lemma by_name_exits_witness :
  let r := respond (convert_file_by_name (says lone_surrogate) "a.txt" (Some "report")
                      sample_uuid 9 with_report) in
  with_report !! (CONVERTED_DIR ++ ["report.md"]) = Some (File "# old" 2) ∧
  status r.1 = 500 ∧
  r.2 !! (CONVERTED_DIR ++ ["report.md"]) = Some (File "" 9) ∧
  (r.2 = with_report ∨
   ∃ q res,
     utf8_encode (text_content res) = None ∧
     resolve with_report (joinpath CONVERTED_DIR "report.md") = Some q ∧
     r.2 = <[q := File "" 9]> with_report).
Proof.
  cbv zeta. do 3 (split; [vm_compute; reflexivity|]).
  destruct (by_name_exits (says lone_surrogate) "a.txt" (Some "report") sample_uuid 9
              with_report) as (_ & _ & _ & _ & [H|(q & res & _ & He & Hq & H)]);
    [vm_compute; reflexivity | by left | right; by exists q, res].
Defined.

(** X7: without [output_filename], a conversion by filename changes at most
    one path, the entry [{stem}_{token}.md] of Converted, whatever its
    outcome: the input file and everything else in Uploads stay as they
    were. *)
Theorem by_name_touches_one_entry md (fn : string) (u : N) (now : Z) (σ : fs) (p : Path) :
  p ≠ CONVERTED_DIR ++ [stem (basename fn) +:+ "_" +:+ unique_id u +:+ ".md"] →
  (respond (convert_file_by_name md fn None u now σ)).2 !! p = σ !! p ∧
  (respond (convert_file_by_name_get md fn None u now σ)).2 !! p = σ !! p.
Proof.
  intros Hp. change (convert_file_by_name_get md) with (convert_file_by_name md).
  split; by apply by_name_default_frame.
Qed.

Lemma by_name_touches_one_entry_witness :
  (respond (convert_file_by_name echo "a.txt" None sample_uuid 9 one_upload)).2
    !! (UPLOAD_DIR ++ ["a.txt"]) = Some (File "abc" 7).
Proof.
  destruct (by_name_touches_one_entry echo "a.txt" sample_uuid 9 one_upload
              (UPLOAD_DIR ++ ["a.txt"])) as [H _]; [discriminate|].
  rewrite H. vm_compute. reflexivity.
Defined.

(** ** From conversion to download, listing and removal *)






(** X9: DELETE /delete removes exactly one entry. For a regular file of
    Converted under a plain name the answer is 200 and only that path
    changes; afterwards GET /download and a second DELETE of the name both
    answer 404, and GET /list-converted no longer reports it. *)
Theorem delete_then_absent (σ : fs) (name data : string) (mtime : Z) :
  layout σ = true → segment name = true →
  σ !! (CONVERTED_DIR ++ [name]) = Some (File data mtime) →
  let r := respond (delete_converted_file name σ) in
  status r.1 = 200 ∧
  r.2 !! (CONVERTED_DIR ++ [name]) = None ∧
  (∀ p, p ≠ CONVERTED_DIR ++ [name] → r.2 !! p = σ !! p) ∧
  status (respond (download_converted_file name r.2)).1 = 404 ∧
  status (respond (delete_converted_file name r.2)).1 = 404 ∧
  (respond (delete_converted_file name r.2)).2 = r.2 ∧
  ∀ files total,
    body (respond (list_converted_files r.2)).1 = Files files total →
    name ∉ filename <$> files.
Proof.
  intros [_ Hconv]%layout_dirs Hseg Hl r.
  pose proof (segment_regular name Hseg) as Hreg.
  assert (Hr : r = ({| status := 200;
                       body := Deleted ("File " +:+ name +:+ " deleted successfully") |},
                    delete (CONVERTED_DIR ++ [name]) σ)).
  { subst r.
    unfold delete_converted_file, try_except, bind, path_exists, raise, ret, respond, exists_.
    red_handler. rewrite stat_child, Hl by done. red_handler.
    rewrite joinpath_segment by done.
    by rewrite (unlink_entry σ CONVERTED_DIR name data mtime). }
  rewrite Hr. cbn [fst snd status]. set (σ' := delete _ σ).
  assert (Hconv' : is_dir σ' CONVERTED_DIR = true).
  { rewrite <-Hconv. apply is_dir_frame; [done|]. intros p Hp.
    apply lookup_delete_ne. intros <-. apply prefix_length in Hp.
    rewrite length_app in Hp. simpl in Hp. lia. }
  assert (Hgone : σ' !! (CONVERTED_DIR ++ [name]) = None) by apply lookup_delete_eq.
  assert (Hst : stat_node σ' (joinpath CONVERTED_DIR name) = None) by (by rewrite stat_child).
  split; [done|]. split; [done|]. split; [intros p Hp; by apply lookup_delete_ne|].
  split; [|split; [|split]].
  - unfold download_converted_file, bind, path_exists, raise, respond, exists_.
    red_handler. rewrite Hst. by red_handler.
  - unfold delete_converted_file, bind, path_exists, raise, respond, exists_.
    red_handler. rewrite Hst. by red_handler.
  - unfold delete_converted_file, bind, path_exists, raise, respond, exists_.
    red_handler. rewrite Hst. by red_handler.
  - intros files total. rewrite list_converted_run. cbn [fst body]. intros [= <- _].
    intros (e & Heq & Hin)%list_elem_of_fmap.
    apply list_elem_of_In, in_map_iff in Hin as ([name' n] & <- & Hin).
    simpl in Heq. subst name'.
    apply list_elem_of_In, glob_md_spec in Hin as [Hin _]; [|done]. congruence.
Qed.

Lemma delete_then_absent_witness :
  layout mixed = true ∧ segment "a.md" = true ∧
  mixed !! (CONVERTED_DIR ++ ["a.md"]) = Some (File "# a" 2) ∧
  let r := respond (delete_converted_file "a.md" mixed) in
  status r.1 = 200 ∧
  r.2 !! (CONVERTED_DIR ++ ["a.md"]) = None ∧
  status (respond (download_converted_file "a.md" r.2)).1 = 404 ∧
  status (respond (delete_converted_file "a.md" r.2)).1 = 404.
Proof.
  do 3 (split; [vm_compute; reflexivity|]).
  destruct (delete_then_absent mixed "a.md" "# a" 2) as (H1 & H2 & _ & H3 & H4 & _);
    [vm_compute; reflexivity..|].
  repeat split; assumption.
Defined.

(** X10: GET /download and DELETE /delete decide on what the name resolves
    to below Converted, for any name given as it is: nothing there, both
    answer 404; a directory there, both answer 500; and in either case the
    filesystem is left as it was. GET /download never changes it at all. *)
Theorem download_delete_by_kind (σ : fs) (name : string) :
  let path := joinpath CONVERTED_DIR name in
  let down := respond (download_converted_file name σ) in
  let del := respond (delete_converted_file name σ) in
  down.2 = σ ∧
  (exists_ σ path = false →
   status down.1 = 404 ∧ status del.1 = 404 ∧ del.2 = σ) ∧
  (is_dir σ path = true →
   status down.1 = 500 ∧ status del.1 = 500 ∧ del.2 = σ).
Proof.
  intros path down del. subst down del.
  unfold download_converted_file, delete_converted_file, try_except, bind, path_exists,
    raise, ret, respond, exists_, is_dir.
  red_handler. fold path.
  destruct (stat_node σ path) as [n|] eqn:Hst; red_handler; rewrite ?Hst;
    [|by red_handler].
  assert (Hun : ∀ st, n = Dir st →
            unlink path σ = (inl (IsADirectoryError (str_path path)), σ)).
  { intros st ->. unfold unlink. unfold stat_node in Hst.
    destruct (resolve σ path) as [q|]; [|done]. by rewrite Hst. }
  destruct n as [d m|st]; red_handler; [done|].
  rewrite (Hun st eq_refl). by red_handler.
Qed.

Lemma download_delete_by_kind_witness :
  exists_ fresh (joinpath CONVERTED_DIR "gone.md") = false ∧
  status (respond (delete_converted_file "gone.md" fresh)).1 = 404 ∧
  is_dir fresh (joinpath CONVERTED_DIR "..") = true ∧
  status (respond (download_converted_file ".." fresh)).1 = 500.
Proof.
  destruct (download_delete_by_kind fresh "gone.md") as (_ & H404 & _).
  destruct (download_delete_by_kind fresh "..") as (_ & _ & H500).
  split; [vm_compute; reflexivity|].
  split; [apply H404; vm_compute; reflexivity|].
  split; [vm_compute; reflexivity|].
  apply H500; vm_compute; reflexivity.
Defined.

(** ** POST /convert *)

Lemma respond_snd (x : (exception + content) * fs) : (respond x).2 = x.2.
Proof. by destruct x as [[[]|c] σ]. Qed.

(** X11: over a flat Uploads directory POST /convert answers 200, 400, 422
    or 500 and nothing else, 400 exactly for an empty filename and then
    without touching the filesystem; and whenever it answers 200 or 500,
    nothing exists under its temporary path afterwards. *)
Theorem convert_file_exits md (fn data : string) (out : option string) (u : N) (now : Z)
    (σ : fs) :
  layout σ = true → no_subdirs σ UPLOAD_DIR = true →
  let temp := joinpath UPLOAD_DIR (unique_id u +:+ "_" +:+ fn) in
  let r := respond (convert_file md fn data out u now σ) in
  (status r.1 = 200 ∨ status r.1 = 400 ∨ status r.1 = 422 ∨ status r.1 = 500) ∧
  (status r.1 = 400 ↔ fn = "") ∧
  (status r.1 = 400 → r.2 = σ) ∧
  (status r.1 = 200 ∨ status r.1 = 500 → exists_ r.2 temp = false).
Proof.
  intros [Hup _]%layout_dirs Hflat temp r.
  assert (Hup' : is_dir r.2 UPLOAD_DIR = true).
  { subst r. rewrite respond_snd, <-Hup. apply is_dir_same_dirs, convert_file_keeps_dirs. }
  pose proof (convert_file_cases md fn data out u now σ Hup Hflat) as H.
  cbv zeta in H. fold temp r in H.
  destruct H as [(-> & H1 & H2)|[(Hne & Hnone & H1 & H2)|(s & Hne & Hs & Htemp & _ & H)]].
  - rewrite H1. repeat split; auto; try done. intros [|]; done.
  - rewrite H1, H2. repeat split; auto; try done.
    intros _. unfold exists_, stat_node. by rewrite Hnone.
  - pose proof (segment_regular s Hs) as Hreg.
    assert (Hgone : r.2 = delete temp r.2 ∨ True → r.2 !! temp = None →
                    exists_ r.2 temp = false).
    { intros _ Hl. unfold exists_. rewrite Htemp, stat_entry by done.
      by rewrite <-Htemp, Hl. }
    destruct (md _ _) as [msg|[res|]];
      try (destruct H as [H1 H2]; rewrite H1; repeat split; auto; try done;
           intros [|]; done).
    destruct (is_empty (text_content res));
      [destruct H as [H1 H2]; rewrite H1; repeat split; auto; try done;
       intros [|]; done|].
    destruct (open_write_text _ (text_content res) now _) as [[e|[]] σ2].
    + destruct H as [H1 H2]. rewrite H1. repeat split; auto; try done.
      intros _. apply Hgone; [by right|]. rewrite H2. apply lookup_delete_eq.
    + assert (H1 : status r.1 = 200) by (by rewrite H).
      rewrite H1. repeat split; auto; try done.
      intros _. apply Hgone; [by right|]. rewrite H. apply lookup_delete_eq.
Qed.

Lemma convert_file_exits_witness :
  let temp := joinpath UPLOAD_DIR (unique_id sample_uuid +:+ "_" +:+ "a.txt") in
  let r := respond (convert_file echo "a.txt" "hello" None sample_uuid 5 fresh) in
  layout fresh = true ∧ no_subdirs fresh UPLOAD_DIR = true ∧
  status r.1 = 200 ∧ exists_ r.2 temp = false.
Proof.
  intros temp r. do 3 (split; [vm_compute; reflexivity|]).
  destruct (convert_file_exits echo "a.txt" "hello" None sample_uuid 5 fresh)
    as (_ & _ & _ & H); [vm_compute; reflexivity..|].
  apply H. left. vm_compute. reflexivity.
Defined.

(** ** Directories *)

(** X12: no request creates, removes or alters a directory: after any
    handler every path is a directory exactly when it was one before, so the
    two directories set up at start-up stay in place and a flat directory
    stays flat. *)
Theorem directories_never_change md (fn name data : string) (out : option string)
    (u : N) (now : Z) (σ : fs) :
  Forall (λ σ' : fs,
            same_dirs σ σ' ∧
            (layout σ = true → layout σ' = true) ∧
            (∀ d, no_subdirs σ d = true → no_subdirs σ' d = true))
    [ (respond (upload_file name data now σ)).2;
      (respond (list_uploaded_files σ)).2;
      (respond (convert_file_by_name md fn out u now σ)).2;
      (respond (convert_file_by_name_get md fn out u now σ)).2;
      (respond (convert_file md fn data out u now σ)).2;
      (respond (download_converted_file name σ)).2;
      (respond (list_converted_files σ)).2;
      (respond (delete_converted_file name σ)).2 ].
Proof.
  assert (Hk : ∀ m : M content, keeps_dirs m →
            same_dirs σ (respond (m σ)).2 ∧
            (layout σ = true → layout (respond (m σ)).2 = true) ∧
            (∀ d, no_subdirs σ d = true → no_subdirs (respond (m σ)).2 d = true)).
  { intros m Hm. rewrite respond_snd. specialize (Hm σ). split; [done|]. split.
    - unfold layout.
      by rewrite (is_dir_same_dirs σ (m σ).2 UPLOAD_DIR),
        (is_dir_same_dirs σ (m σ).2 CONVERTED_DIR).
    - intros d. by apply no_subdirs_same_dirs. }
  constructor; [exact (Hk _ (upload_keeps_dirs name data now))|].
  constructor; [exact (Hk _ list_uploaded_keeps_dirs)|].
  constructor; [exact (Hk _ (by_name_keeps_dirs md fn out u now))|].
  constructor; [exact (Hk _ (by_name_get_keeps_dirs md fn out u now))|].
  constructor; [exact (Hk _ (convert_file_keeps_dirs md fn data out u now))|].
  constructor; [exact (Hk _ (download_keeps_dirs name))|].
  constructor; [exact (Hk _ list_converted_keeps_dirs)|].
  constructor; [exact (Hk _ (delete_keeps_dirs name))|].
  constructor.
Qed.

(** ** From upload to conversion *)

(** X13: an upload can be listed and converted. After a successful upload
    under a sanitized name [b], GET /list-uploads reports [b] with the size
    of the uploaded bytes, and a conversion by filename of the same name
    finds the file (its answer is neither 404 nor 400); when the converter
    returns for [/app/uploads/b] a non-empty text that UTF-8 can encode and
    Converted is flat, the answer is 200, Converted holds the encoded text
    under [{stem}_{token}.md], and the uploaded file is still in Uploads,
    unchanged. *)
Theorem upload_then_convert md (name data : string) (u : N) (now now' : Z) (σ : fs) :
  layout σ = true →
  exists_ σ (joinpath UPLOAD_DIR (basename name)) = false →
  let b := basename name in
  let σ1 := (respond (upload_file name data now σ)).2 in
  let r := respond (convert_file_by_name md name None u now' σ1) in
  (∃ files,
     respond (list_uploaded_files σ1) =
       ({| status := 200; body := Files files (length files) |}, σ1) ∧
     {| filename := b; size := String.length data; modified := now;
        url := "/convert-by-filename/" +:+ b |} ∈ files) ∧
  status r.1 ≠ 404 ∧ status r.1 ≠ 400 ∧
  (∀ res bytes, md σ1 (str_path (UPLOAD_DIR ++ [b])) = Returns (Some res) →
          text_content res ≠ [] → utf8_encode (text_content res) = Some bytes →
          no_subdirs σ CONVERTED_DIR = true →
          status r.1 = 200 ∧
          r.2 !! (CONVERTED_DIR ++ [stem b +:+ "_" +:+ unique_id u +:+ ".md"]) =
            Some (File bytes now') ∧
          r.2 !! (UPLOAD_DIR ++ [b]) = Some (File data now)).
Proof.
  intros Hlay Hex b σ1 r. pose proof Hlay as [Hup Hconv]%layout_dirs.
  pose proof (absent_is_segment σ UPLOAD_DIR _ regular_UPLOAD_DIR Hup
                (basename_slash_free name) Hex) as Hseg. fold b in Hseg.
  assert (Hne : name ≠ "") by (by intros ->).
  assert (Hσ1 : σ1 = <[UPLOAD_DIR ++ [b] := File data now]> σ).
  { subst σ1. by rewrite upload_fresh. }
  assert (Hfr : ∀ d p, p `prefix_of` d → d = UPLOAD_DIR ∨ d = CONVERTED_DIR →
                       σ1 !! p = σ !! p).
  { intros d p Hp Hd. rewrite Hσ1. apply lookup_insert_ne. intros <-.
    apply prefix_length in Hp. rewrite length_app in Hp. destruct Hd as [-> | ->];
      simpl in Hp; lia. }
  assert (Hup1 : is_dir σ1 UPLOAD_DIR = true).
  { rewrite <-Hup. apply is_dir_frame; [done|]. intros p Hp. eapply Hfr; eauto. }
  assert (Hconv1 : is_dir σ1 CONVERTED_DIR = true).
  { rewrite <-Hconv. apply is_dir_frame; [done|]. intros p Hp. eapply Hfr; eauto. }
  assert (Hl1 : σ1 !! (UPLOAD_DIR ++ [b]) = Some (File data now)).
  { rewrite Hσ1. apply lookup_insert_eq. }
  assert (Hst : stat_node σ1 (joinpath UPLOAD_DIR b) = Some (File data now)).
  { by rewrite stat_child. }
  assert (Hf : is_file σ1 (joinpath UPLOAD_DIR b) = true).
  { unfold is_file. by rewrite Hst. }
  pose proof (default_name_segment b u) as Hdn.
  assert (Hstatus : status r.1 = 200 ∨ status r.1 = 422 ∨ status r.1 = 500).
  { pose proof (by_name_cases md name None u now' σ1) as H. cbv zeta in H.
    fold b r in H.
    destruct H as [(_ & _ & [?|Hno])|[(_ & _ & Hno)|(_ & _ & H)]]; [done|congruence| |].
    { apply is_file_exists in Hf. congruence. }
    destruct (md σ1 _) as [msg|[res|]]; try (destruct H as [H _]; by auto).
    destruct (is_empty (text_content res)); [destruct H as [H _]; by auto|].
    destruct (open_write_text _ _ now' σ1) as [[e|[]] σ2]; [destruct H as [H _]; by auto|].
    rewrite H. by left. }
  split; [|split; [lia|split; [lia|]]].
  - unfold list_uploaded_files, try_except, respond.
    pose proof Hup1 as Hd. unfold is_dir in Hd.
    destruct (stat_node σ1 UPLOAD_DIR) as [[|st]|]; try done.
    eexists. split; [reflexivity|].
    apply list_elem_of_omap. exists (b, File data now). split; [|done].
    by apply scandir_spec.
  - intros res bytes Hmd Hnon He Hflat. subst r.
    rewrite (by_name_succeeds md name None u now' σ1 res bytes); try done.
    + cbn [fst snd status truthy]. split; [done|]. split; [apply lookup_insert_eq|].
      by rewrite lookup_insert_ne.
    + by rewrite joinpath_segment.
    + cbn [truthy]. intros st. rewrite Hσ1, lookup_insert_ne by done.
      by apply no_subdirs_spec.
Qed.

Lemma upload_then_convert_witness :
  layout fresh = true ∧
  exists_ fresh (joinpath UPLOAD_DIR (basename "docs/memo.txt")) = false ∧
  let σ1 := (respond (upload_file "docs/memo.txt" "hello" 1 fresh)).2 in
  let r := respond (convert_file_by_name echo "docs/memo.txt" None sample_uuid 9 σ1) in
  status r.1 = 200 ∧
  r.2 !! (CONVERTED_DIR ++ ["memo_12345678.md"]) = Some (File "hello" 9) ∧
  r.2 !! (UPLOAD_DIR ++ [basename "docs/memo.txt"]) = Some (File "hello" 1).
Proof.
  do 2 (split; [vm_compute; reflexivity|]).
  destruct (upload_then_convert echo "docs/memo.txt" "hello" sample_uuid 1 9 fresh)
    as (_ & _ & _ & H); [vm_compute; reflexivity..|].
  destruct (H {| text_content := latin1_decode "hello" |} "hello") as (H1 & H2 & H3);
    [vm_compute; reflexivity | discriminate | vm_compute; reflexivity
    | vm_compute; reflexivity|].
  split; [exact H1|]. split; [exact H2 | exact H3].
Defined.
